(** * compile-errors: searching for programs that reproduce themselves in
      compiler error messages

    A shallow embedding of [src/compile-errors.py].  The script writes a
    candidate program to a file, runs a compiler on it, takes the compiler's
    captured output as the next candidate, and stops when the output equals
    the candidate, when the compiler cannot be run, or after [maxIterations]
    tries.

    Modelling conventions.
    - A Python [str] is a [string]; its characters are the code points below
      256, so the line boundaries U+2028 and U+2029 of [str.splitlines] do
      not occur.
    - A Python [int] is a [Z].
    - The file system is a finite map from paths to the text written through
      the text layer; the artifact path is taken to be writable, so
      [open(progFile, 'w')] does not raise.
    - The compiler is an arbitrary function of the command, the files it
      finds and the rest of the machine; it may change both, and it may fail
      to run at all.  Only failures that are an [Exception] are modelled
      (not an interrupt from the keyboard).
    - Fields and functions marked "ghost" record what happened and do not
      influence the run. *)

From Stdlib Require Import ZArith Ascii String.
From stdpp Require Import base option list list_numbers strings pretty gmap.

Local Open Scope Z_scope.
Local Open Scope string_scope.
Local Open Scope list_scope.

(** ** Python built-ins used by the script *)

(** The string ["\n"] of Python: one line feed. *)
Definition newline : string := String (ascii_of_N 10) "".

(** [range(start, stop)] *)
Definition range (start stop : Z) : list Z := seqZ start (stop - start).

(** The characters at which [str.splitlines] ends a line: LF, VT, FF, CR,
    FS, GS, RS and NEL. *)
Definition is_line_boundary (c : ascii) : bool :=
  match N_of_ascii c with
  | 10 | 11 | 12 | 13 | 28 | 29 | 30 | 133 => true
  | _ => false
  end%N.

Definition is_CR (c : ascii) : bool := (N_of_ascii c =? 13)%N.
Definition is_LF (c : ascii) : bool := (N_of_ascii c =? 10)%N.

(** [splitlines_from after_cr line s]: [line] is the line being collected
    ([None] when no character of it was seen yet), and [after_cr] says that
    the previous character was a CR that ended a line, so that an LF right
    after it belongs to the same boundary. *)
Fixpoint splitlines_from (after_cr : bool) (line : option string)
    (s : string) : list string :=
  match s with
  | EmptyString =>
      match line with
      | None => []
      | Some l => [l]
      end
  | String c rest =>
      if after_cr && is_LF c then splitlines_from false None rest
      else if is_line_boundary c
      then default "" line :: splitlines_from (is_CR c) None rest
      else splitlines_from false
             (Some (default "" line +:+ String c "")) rest
  end.

(** [s.splitlines()] *)
Definition splitlines (s : string) : list string :=
  splitlines_from false None s.

(** [sep.join(words)] *)
Definition join (sep : string) (words : list string) : string :=
  String.concat sep words.

(** ** The compiler process *)

(** The value of [subprocess.run(..., capture_output=True, text=True)]. *)
Record CompletedProcess := {
  args : list string;
  returncode : Z;
  stdout : string;
  stderr : string
}.

(** An attempt to run the command either completes or raises an
    [Exception] (the executable is missing, its output cannot be decoded,
    ...). *)
Inductive Attempt :=
| Completed (result : CompletedProcess)
| RaisedException.

(** Ghost: one record per call of [subprocess.run], with the loop variables
    at the call and the files the process found. *)
Record Invocation := {
  inv_count : Z;
  inv_program : string;
  inv_files : gmap string string;
  inv_attempt : Attempt
}.

(** Where [compileErrors] stopped, with the local variables there (ghost).
    - [Converged program count]: [return True] at line 49;
    - [InvocationFailed compileCommand]: [return False] at line 42;
    - [ExhaustedBudget count]: [return False] at line 52;
    - [CountUnbound]: line 51 reads [count] although the loop body never
      ran, which raises [UnboundLocalError]. *)
Inductive Exit :=
| Converged (program : string) (count : Z)
| InvocationFailed (compileCommand : list string)
| ExhaustedBudget (count : Z)
| CountUnbound.

(** What the caller of a Python function gets. *)
Inductive PyResult :=
| Returns (value : bool)
| Raises (exception : string).

Definition result_of (e : Exit) : PyResult :=
  match e with
  | Converged _ _ => Returns true
  | InvocationFailed _ => Returns false
  | ExhaustedBudget _ => Returns false
  | CountUnbound => Raises "UnboundLocalError"
  end.

(** What one pass through the loop body decides. *)
Inductive Flow :=
| Continue (program : string)
| Return (e : Exit).

Section Search.

(** Everything on the machine apart from the files. *)
Context {World : Type}.

(** [subprocess_run command world files]: the machine after the attempt
    and the attempt's result. *)
Variable subprocess_run :
  list string -> World -> gmap string string ->
  World * gmap string string * Attempt.

(** The module-level [maxIterations] that [compileErrors] reads. *)
Variable maxIterations : Z.

Record State := {
  files : gmap string string;
  world : World;
  sys_stdout : string;
  invocations : list Invocation
}.

(** Computations of the script: a state monad. *)
Definition M (A : Type) : Type := State -> A * State.

Definition ret {A} (a : A) : M A := fun st => (a, st).

Definition bind {A B} (m : M A) (k : A -> M B) : M B :=
  fun st => let (a, st') := m st in k a st'.

Notation "x <- m ;; k" := (bind m (fun x => k))
  (at level 100, m at next level, right associativity).
Notation "m ;;; k" := (bind m (fun _ => k))
  (at level 100, right associativity).

(** [print(text, end=ending)] on [sys.stdout] *)
Definition print_end (text ending : string) : M unit := fun st =>
  (tt, {| files := files st; world := world st;
          sys_stdout := sys_stdout st +:+ text +:+ ending;
          invocations := invocations st |}).

(** [print(text)] *)
Definition print (text : string) : M unit := print_end text newline.

(** [with open(path, 'w') as f: print(text, file=f)] *)
Definition print_to_new_file (path text : string) : M unit := fun st =>
  (tt, {| files := <[path := text +:+ newline]> (files st); world := world st;
          sys_stdout := sys_stdout st;
          invocations := invocations st |}).

(** [subprocess.run(command, capture_output=True, text=True)]; [count]
    and [program] only go into the ghost record. *)
Definition run (count : Z) (program : string) (command : list string)
    : M Attempt := fun st =>
  let '(w, fs, a) := subprocess_run command (world st) (files st) in
  (a, {| files := fs; world := w;
         sys_stdout := sys_stdout st;
         invocations := invocations st ++
           [{| inv_count := count; inv_program := program;
               inv_files := files st; inv_attempt := a |}] |}).

Section CompileErrors.

Variables (description progFile : string) (compileCommand : list string)
          (errorsInStderr : bool).

(** The stream that carries the compiler's messages (lines 43-46). *)
Definition selected (result : CompletedProcess) : string :=
  if errorsInStderr then stderr result else stdout result.

(** Lines 36-50: the body of the [for] loop. *)
Definition loop_body (count : Z) (program : string) : M Flow :=
  print_to_new_file progFile program ;;;
  a <- run count program compileCommand ;;
  match a with
  | RaisedException =>
      print ("Error: Unable to compile. Command: "
             +:+ join " " compileCommand) ;;;
      ret (Return (InvocationFailed compileCommand))
  | Completed result =>
      let output := selected result in
      if String.eqb program output then
        print (progFile +:+ ", " +:+ pretty count +:+ " iterations, "
               +:+ pretty (length (splitlines program)) +:+ " lines") ;;;
        ret (Return (Converged program count))
      else ret (Continue output)
  end.

(** Lines 35-52: [for count in counts: ...] followed by the two lines
    after the loop.  [count] is the value the loop variable has when the
    loop is entered with [counts] left: [None] while it is unbound. *)
Fixpoint for_count (counts : list Z) (count : option Z)
    (program : string) : M Exit :=
  match counts with
  | [] =>
      match count with
      | Some c =>
          print ("did not converge after " +:+ pretty c
                 +:+ " iterations") ;;;
          ret (ExhaustedBudget c)
      | None => ret CountUnbound
      end
  | c :: rest =>
      flow <- loop_body c program ;;
      match flow with
      | Return e => ret e
      | Continue output => for_count rest (Some c) output
      end
  end.

(** [compileErrors], reporting where it stopped. *)
Definition compileErrors_exit (startingProgram : string) : M Exit :=
  print_end (description +:+ ": ") "" ;;;
  for_count (range 1 (maxIterations + 1)) None startingProgram.

(** [compileErrors] as its caller sees it. *)
Definition compileErrors (startingProgram : string) : M PyResult :=
  e <- compileErrors_exit startingProgram ;;
  ret (result_of e).

End CompileErrors.

(** The state in which a run starts: nothing printed, nothing invoked. *)
Definition initial (fs : gmap string string) (w : World) : State :=
  {| files := fs; world := w; sys_stdout := ""; invocations := [] |}.

End Search.

Arguments State : clear implicits.
Arguments M : clear implicits.

(** Line 22. *)
Definition maxIterations : Z := 10.

(** ** Transformers used as concrete inputs *)

(** A process that copies the file named by its last argument to its
    standard output and exits with status 0. *)
Definition cat_file (command : list string) (w : unit)
    (fs : gmap string string) : unit * gmap string string * Attempt :=
  (w, fs, Completed {| args := command; returncode := 0;
                       stdout := default "" (fs !! default "" (last command));
                       stderr := "" |}).

(** A process that writes [text] to its standard error, whatever its input,
    and exits with status [status]. *)
Definition complain (text : string) (status : Z) (command : list string)
    (w : unit) (fs : gmap string string)
    : unit * gmap string string * Attempt :=
  (w, fs, Completed {| args := command; returncode := status;
                       stdout := ""; stderr := text |}).

(** A command whose executable does not exist. *)
Definition no_such_command (command : list string) (w : unit)
    (fs : gmap string string) : unit * gmap string string * Attempt :=
  (w, fs, RaisedException).

(** A process that can be started only a limited number of times; the
    machine state counts the runs that are left.  While it can be started
    it copies the file named by its last argument to its standard error,
    adds "!" and exits with status 1. *)
Definition flaky (command : list string) (left : nat)
    (fs : gmap string string) : nat * gmap string string * Attempt :=
  match left with
  | O => (O, fs, RaisedException)
  | S n =>
      (n, fs, Completed {| args := command; returncode := 1; stdout := "";
                           stderr := default "" (fs !! default "" (last command))
                                     +:+ "!" |})
  end.

(** ** Describing a run *)

Section Runs.

Variables (progFile : string) (compileCommand : list string)
          (errorsInStderr : bool).

(** The line [compileErrors] prints when it stops at [e]. *)
Definition report (e : Exit) : string :=
  match e with
  | Converged program count =>
      (progFile +:+ ", " +:+ pretty count +:+ " iterations, "
       +:+ pretty (length (splitlines program)) +:+ " lines") +:+ newline
  | InvocationFailed command =>
      ("Error: Unable to compile. Command: " +:+ join " " command)
      +:+ newline
  | ExhaustedBudget count =>
      ("did not converge after " +:+ pretty count +:+ " iterations")
      +:+ newline
  | CountUnbound => ""
  end.

(** The invocation completed and the selected stream differs from the
    program that was submitted. *)
Definition Differs (inv : Invocation) : Prop :=
  exists result, inv_attempt inv = Completed result /\
                 selected errorsInStderr result <> inv_program inv.

(** [Performed counts count program calls e]: the loop, entered with
    [counts] still to go, the loop variable at [count] and the candidate
    [program], makes the invocations [calls] and stops at [e]. *)
Inductive Performed :
    list Z -> option Z -> string -> list Invocation -> Exit -> Prop :=
| Performed_unbound program :
    Performed [] None program [] CountUnbound
| Performed_exhausted c program :
    Performed [] (Some c) program [] (ExhaustedBudget c)
| Performed_failed c rest count program fs :
    fs !! progFile = Some (program +:+ newline) ->
    Performed (c :: rest) count program
      [{| inv_count := c; inv_program := program; inv_files := fs;
          inv_attempt := RaisedException |}]
      (InvocationFailed compileCommand)
| Performed_converged c rest count program fs result :
    fs !! progFile = Some (program +:+ newline) ->
    selected errorsInStderr result = program ->
    Performed (c :: rest) count program
      [{| inv_count := c; inv_program := program; inv_files := fs;
          inv_attempt := Completed result |}]
      (Converged program c)
| Performed_continue c rest count program fs result calls e :
    fs !! progFile = Some (program +:+ newline) ->
    selected errorsInStderr result <> program ->
    Performed rest (Some c) (selected errorsInStderr result) calls e ->
    Performed (c :: rest) count program
      ({| inv_count := c; inv_program := program; inv_files := fs;
          inv_attempt := Completed result |} :: calls)
      e.

End Runs.

(** The invocations made between the state [st] and the later state [st']. *)
Definition new_invocations {World : Type} (st st' : State World)
    : list Invocation :=
  drop (length (invocations st)) (invocations st').

(** Two attempts that agree on whether the process ran and on both captured
    streams, and leave the same files and related machines; the exit
    statuses are not compared. *)
Definition same_streams {W1 W2 : Type} (R : W1 -> W2 -> Prop)
    (x : W1 * gmap string string * Attempt)
    (y : W2 * gmap string string * Attempt) : Prop :=
  R x.1.1 y.1.1 /\ x.1.2 = y.1.2 /\
  match x.2, y.2 with
  | Completed r1, Completed r2 =>
      stdout r1 = stdout r2 /\ stderr r1 = stderr r2
  | RaisedException, RaisedException => True
  | _, _ => False
  end.

(** Two states that differ at most in the machine outside the files and in
    the ghost record. *)
Definition same_observables {W1 W2 : Type} (R : W1 -> W2 -> Prop)
    (st1 : State W1) (st2 : State W2) : Prop :=
  files st1 = files st2 /\ R (world st1) (world st2) /\
  sys_stdout st1 = sys_stdout st2 /\
  length (invocations st1) = length (invocations st2).

(** [program] followed by [n] line feeds. *)
Definition with_newlines (n : nat) (program : string) : string :=
  Nat.iter n (fun text => text +:+ newline) program.

(** ** The script (lines 56-128) *)

(** The keyword arguments of one call of [compileErrors]. *)
Record Call := {
  call_description : string;
  call_progFile : string;
  call_compileCommand : list string;
  call_errorsInStderr : bool;
  call_startingProgram : string
}.

(** The eight calls the script makes, in the order of the source; each
    command ends with the [progFile] assigned just before the call. *)
Definition script_calls : list Call :=
  [ {| call_description := "Python (trivial)"; call_progFile := "prog0.py";
       call_compileCommand := ["py"; "prog0.py"];
       call_errorsInStderr := true; call_startingProgram := "" |};
    {| call_description := "Python"; call_progFile := "prog.py";
       call_compileCommand := ["py"; "prog.py"];
       call_errorsInStderr := true; call_startingProgram := "x" |};
    {| call_description := "Microsoft C"; call_progFile := "progMSVC.c";
       call_compileCommand := ["cl"; "/std:c17"; "/EHsc"; "progMSVC.c"];
       call_errorsInStderr := false; call_startingProgram := "x" |};
    {| call_description := "Microsoft C++"; call_progFile := "progMSVC.cpp";
       call_compileCommand := ["cl"; "/std:c++20"; "/EHsc"; "progMSVC.cpp"];
       call_errorsInStderr := false; call_startingProgram := "x" |};
    {| call_description := "Microsoft C/Clang";
       call_progFile := "progMSClang.c";
       call_compileCommand := ["clang-cl"; "/std:c17"; "progMSClang.c"];
       call_errorsInStderr := true; call_startingProgram := "x" |};
    {| call_description := "Microsoft C++/Clang";
       call_progFile := "progMSClang.cpp";
       call_compileCommand := ["clang-cl"; "/std:c++20"; "progMSClang.cpp"];
       call_errorsInStderr := true; call_startingProgram := "x" |};
    {| call_description := "Perl"; call_progFile := "prog.pl";
       call_compileCommand := ["perl"; "prog.pl"];
       call_errorsInStderr := true; call_startingProgram := "1x" |};
    {| call_description := "Shell script"; call_progFile := "prog.sh";
       call_compileCommand := ["sh"; "prog.sh"];
       call_errorsInStderr := true; call_startingProgram := "x" |} ].

(** How the execution of the module ends: it reaches the end of the file,
    or an exception that nothing catches stops it. *)
Inductive ScriptResult :=
| Finished
| Uncaught (exception : string).

(** The statements [compileErrors(...)] one after the other, reading the
    module-level [budget] at each call.  The returned booleans are
    dropped; an exception raised by a call ends the execution. *)
Fixpoint run_calls {World : Type}
    (subprocess_run : list string -> World -> gmap string string ->
                      World * gmap string string * Attempt)
    (budget : Z) (calls : list Call) (st : State World)
    : ScriptResult * State World :=
  match calls with
  | [] => (Finished, st)
  | c :: rest =>
      match compileErrors subprocess_run budget (call_description c)
              (call_progFile c) (call_compileCommand c)
              (call_errorsInStderr c) (call_startingProgram c) st with
      | (Returns _, st') => run_calls subprocess_run budget rest st'
      | (Raises exception, st') => (Uncaught exception, st')
      end
  end.

(** The module as it is run: [maxIterations = 10], then the eight calls. *)
Definition script {World : Type}
    (subprocess_run : list string -> World -> gmap string string ->
                      World * gmap string string * Attempt)
    : M World ScriptResult :=
  run_calls subprocess_run maxIterations script_calls.

(** The texts of a list, one after the other. *)
Definition concat_text (texts : list string) : string :=
  foldr String.append "" texts.

(** What the call [c] prints when its search stops at [e]. *)
Definition call_output (c : Call) (e : Exit) : string :=
  (call_description c +:+ ": ") +:+ report (call_progFile c) e.

(** The exits a call can have when the budget is at least one. *)
Definition valid_exit (budget : Z) (c : Call) (e : Exit) : Prop :=
  e = InvocationFailed (call_compileCommand c) \/
  e = ExhaustedBudget budget \/
  exists program count, e = Converged program count /\ 1 <= count <= budget.

(** Two attempts that agree on whether the process ran and on the selected
    stream, and leave the same files and related machines; the other
    stream and the exit statuses are not compared. *)
Definition same_selected {W1 W2 : Type} (errorsInStderr : bool)
    (R : W1 -> W2 -> Prop)
    (x : W1 * gmap string string * Attempt)
    (y : W2 * gmap string string * Attempt) : Prop :=
  R x.1.1 y.1.1 /\ x.1.2 = y.1.2 /\
  match x.2, y.2 with
  | Completed r1, Completed r2 =>
      selected errorsInStderr r1 = selected errorsInStderr r2
  | RaisedException, RaisedException => True
  | _, _ => False
  end.

(** A process that writes [out] to its standard output and [err] to its
    standard error, whatever its input, and exits with status [status]. *)
Definition emit (out err : string) (status : Z) (command : list string)
    (w : unit) (fs : gmap string string)
    : unit * gmap string string * Attempt :=
  (w, fs, Completed {| args := command; returncode := status;
                       stdout := out; stderr := err |}).

(** The invocation completed and the captured stream that
    [errorsInStderr] selects ([result.stderr] when it is set,
    [result.stdout] otherwise) is the program that was submitted: the
    transformer reproduced its input. *)
Definition Reproduced (errorsInStderr : bool) (inv : Invocation) : Prop :=
  exists result,
    inv_attempt inv = Completed result /\
    (if errorsInStderr then stderr result else stdout result)
    = inv_program inv.

(** The invocation completed and that stream is not the program that was
    submitted. *)
Definition NotReproduced (errorsInStderr : bool) (inv : Invocation) : Prop :=
  exists result,
    inv_attempt inv = Completed result /\
    (if errorsInStderr then stderr result else stdout result)
    <> inv_program inv.

(** A process that copies the file named by its last argument to its
    standard error, adds "!", writes something else to its standard
    output, overwrites that file and exits with status 1. *)
Definition clobber (command : list string) (w : unit)
    (fs : gmap string string) : unit * gmap string string * Attempt :=
  (w, <[default "" (last command) := "clobbered"]> fs,
   Completed {| args := command; returncode := 1; stdout := "ignored";
                stderr := default "" (fs !! default "" (last command))
                          +:+ "!" |}).

(** ** Strings *)

Lemma string_app_nil_r (s : string) : s +:+ "" = s.
Proof.
  induction s as [|c s IH]; [reflexivity|]. exact (f_equal (String c) IH).
Qed.

Lemma string_app_assoc (s t u : string) : (s +:+ t) +:+ u = s +:+ t +:+ u.
Proof.
  induction s as [|c s IH]; [reflexivity|]. exact (f_equal (String c) IH).
Qed.

Lemma string_length_app (s t : string) :
  String.length (s +:+ t) = (String.length s + String.length t)%nat.
Proof.
  induction s as [|c s IH]; [reflexivity|]. exact (f_equal S IH).
Qed.

(** No text equals itself followed by a line feed. *)
Lemma newline_changes (s : string) : s +:+ newline <> s.
Proof.
  intros H. apply (f_equal String.length) in H.
  rewrite string_length_app in H. cbn in H. lia.
Qed.

(** ** Ranges *)

Lemma range_nil (start stop : Z) : stop <= start -> range start stop = [].
Proof. intros H. unfold range. apply seqZ_nil. lia. Qed.

Lemma range_cons (start stop : Z) :
  start < stop -> range start stop = start :: range (start + 1) stop.
Proof.
  intros H. unfold range. rewrite seqZ_cons by lia.
  f_equal. f_equal; lia.
Qed.

Lemma length_range (start stop : Z) :
  length (range start stop) = Z.to_nat (stop - start).
Proof. apply length_seqZ. Qed.

Lemma lookup_range (start stop : Z) (i : nat) (c : Z) :
  range start stop !! i = Some c -> c = start + Z.of_nat i.
Proof. unfold range. intros H. by apply lookup_seqZ in H as [-> _]. Qed.

(** ** The loop body, case by case *)

Section Loop.

Context {World : Type}.
Variable subprocess_run :
  list string -> World -> gmap string string ->
  World * gmap string string * Attempt.
Variables (progFile : string) (compileCommand : list string)
          (errorsInStderr : bool).

Abbreviation body :=
  (loop_body subprocess_run progFile compileCommand errorsInStderr).
Abbreviation loop :=
  (for_count subprocess_run progFile compileCommand errorsInStderr).
Abbreviation submitted program st :=
  (<[progFile := program +:+ newline]> (files st)).
Abbreviation call c program st a :=
  {| inv_count := c; inv_program := program;
     inv_files := submitted program st; inv_attempt := a |}.

Lemma loop_body_raised c program (st : State World) w fs :
  subprocess_run compileCommand (world st) (submitted program st)
    = (w, fs, RaisedException) ->
  body c program st =
    (Return (InvocationFailed compileCommand),
     {| files := fs; world := w;
        sys_stdout := sys_stdout st +:+
          report progFile (InvocationFailed compileCommand);
        invocations := invocations st ++
                       [call c program st RaisedException] |}).
Proof.
  intros H. unfold loop_body, bind, run, print_to_new_file. cbn.
  rewrite H. reflexivity.
Qed.

Lemma loop_body_equal c program (st : State World) w fs result :
  subprocess_run compileCommand (world st) (submitted program st)
    = (w, fs, Completed result) ->
  selected errorsInStderr result = program ->
  body c program st =
    (Return (Converged program c),
     {| files := fs; world := w;
        sys_stdout := sys_stdout st +:+ report progFile (Converged program c);
        invocations := invocations st ++
                       [call c program st (Completed result)] |}).
Proof.
  intros H Heq. unfold loop_body, bind, run, print_to_new_file. cbn.
  rewrite H. cbn. rewrite Heq, String.eqb_refl. reflexivity.
Qed.

Lemma loop_body_differs c program (st : State World) w fs result :
  subprocess_run compileCommand (world st) (submitted program st)
    = (w, fs, Completed result) ->
  selected errorsInStderr result <> program ->
  body c program st =
    (Continue (selected errorsInStderr result),
     {| files := fs; world := w; sys_stdout := sys_stdout st;
        invocations := invocations st ++
                       [call c program st (Completed result)] |}).
Proof.
  intros H Hne. unfold loop_body, bind, run, print_to_new_file. cbn.
  rewrite H. cbn.
  destruct (String.eqb_spec program (selected errorsInStderr result))
    as [Heq|_]; [by destruct Hne|reflexivity].
Qed.

(** ** The loop makes a [Performed] run *)

Lemma for_count_cons c rest count program (st : State World) :
  loop (c :: rest) count program st =
    match body c program st with
    | (Return e, st1) => (e, st1)
    | (Continue output, st1) => loop rest (Some c) output st1
    end.
Proof.
  cbn [for_count]. unfold bind.
  by destruct (body c program st) as [[output|e] st1].
Qed.

Lemma for_count_performed counts count program (st : State World) :
  exists calls,
    invocations (loop counts count program st).2 = invocations st ++ calls /\
    Performed progFile compileCommand errorsInStderr
      counts count program calls (loop counts count program st).1 /\
    sys_stdout (loop counts count program st).2
      = sys_stdout st +:+ report progFile (loop counts count program st).1 /\
    Forall (fun inv => exists w,
              (subprocess_run compileCommand w (inv_files inv)).2
              = inv_attempt inv) calls.
Proof.
  revert count program st.
  induction counts as [|c rest IH]; intros count program st.
  - exists []. destruct count as [k|]; cbn.
    + rewrite app_nil_r. split_and!; [done|constructor|done|done].
    + rewrite app_nil_r, string_app_nil_r.
      split_and!; [done|constructor|done|done].
  - rewrite for_count_cons.
    destruct (subprocess_run compileCommand (world st)
                (submitted program st)) as [[w fs] [result|]] eqn:Hrun.
    + destruct (decide (selected errorsInStderr result = program))
        as [Heq|Hne].
      * rewrite (loop_body_equal _ _ _ _ _ _ Hrun Heq). cbn.
        eexists. split_and!; [done| |done|].
        -- constructor; [apply lookup_insert_eq|done].
        -- constructor; [|done]. exists (world st). cbn. by rewrite Hrun.
      * rewrite (loop_body_differs _ _ _ _ _ _ Hrun Hne).
        match goal with
        | |- context [loop rest (Some c) ?p ?s] =>
            destruct (IH (Some c) p s)
              as (calls & Hinv & Hperf & Hout & Hans)
        end.
        exists (call c program st (Completed result) :: calls).
        split_and!.
        -- rewrite Hinv. cbn. by rewrite <- app_assoc.
        -- constructor; [apply lookup_insert_eq|done..].
        -- by rewrite Hout.
        -- constructor; [|done]. exists (world st). cbn. by rewrite Hrun.
    + rewrite (loop_body_raised _ _ _ _ _ Hrun). cbn.
      eexists. split_and!; [done| |done|].
      * constructor. apply lookup_insert_eq.
      * constructor; [|done]. exists (world st). cbn. by rewrite Hrun.
Qed.

End Loop.

(** ** Runs of the loop, read off the record of invocations *)

Section Traces.

Variables (progFile : string) (compileCommand : list string)
          (errorsInStderr : bool).

Abbreviation Run := (Performed progFile compileCommand errorsInStderr).

Lemma Performed_length counts count program calls e :
  Run counts count program calls e ->
  (length calls <= length counts)%nat.
Proof. induction 1; cbn; lia. Qed.

Lemma Performed_nonempty c rest count program calls e :
  Run (c :: rest) count program calls e -> (1 <= length calls)%nat.
Proof. inversion 1; cbn; lia. Qed.

Lemma last_count_step (c : Z) rest count :
  last (c :: rest) ∪ count = last rest ∪ Some c.
Proof.
  destruct rest as [|z rest]; cbn; [by destruct count|].
  destruct (last (z :: rest)) eqn:E; [by destruct count|].
  by apply last_None in E.
Qed.

(** If every invocation completed with an output different from its
    input, the loop used up all its counts. *)
Lemma Performed_all_differ counts count program calls e :
  Run counts count program calls e ->
  Forall (Differs errorsInStderr) calls ->
  length calls = length counts /\
  e = from_option ExhaustedBudget CountUnbound (last counts ∪ count).
Proof.
  induction 1 as [p|c p|c rest count p fs Hfs|c rest count p fs r Hfs Heq
                 |c rest count p fs r calls e Hfs Hne Hrun IH]; intros Hall.
  - done.
  - done.
  - apply Forall_cons in Hall as [(r & Hr & _) _]. discriminate Hr.
  - apply Forall_cons in Hall as [(r' & Hr & Hne) _].
    cbn in Hr, Hne. injection Hr as <-. by destruct Hne.
  - apply Forall_cons in Hall as [_ Hall].
    destruct (IH Hall) as [Hlen ->]. cbn. rewrite Hlen.
    by rewrite last_count_step.
Qed.

(** An invocation that could not be started is the last one, and all the
    invocations before it completed without reaching a fixed point. *)
Lemma Performed_failed_last counts count program calls e k inv :
  Run counts count program calls e ->
  calls !! k = Some inv ->
  inv_attempt inv = RaisedException ->
  length calls = S k /\ e = InvocationFailed compileCommand /\
  Forall (Differs errorsInStderr) (take k calls).
Proof.
  intros Hrun. revert k.
  induction Hrun as [p|c p|c rest count p fs Hfs|c rest count p fs r Hfs Heq
                 |c rest count p fs r calls e Hfs Hne Hrun IH];
    intros [|k] Hk Hraised; try done.
  - cbn in Hk. injection Hk as <-. discriminate Hraised.
  - cbn in Hk. injection Hk as <-. discriminate Hraised.
  - cbn in Hk. destruct (IH k Hk Hraised) as (Hlen & -> & Hall).
    split_and!; [cbn; by rewrite Hlen|done|].
    cbn. constructor; [|done]. by exists r.
Qed.

(** What every invocation of a run looks like. *)
Lemma Performed_invocation counts count program calls e i inv :
  Run counts count program calls e ->
  calls !! i = Some inv ->
  inv_files inv !! progFile = Some (inv_program inv +:+ newline) /\
  counts !! i = Some (inv_count inv) /\
  (i = 0%nat -> inv_program inv = program) /\
  (forall next, calls !! S i = Some next ->
     exists result, inv_attempt inv = Completed result /\
                    selected errorsInStderr result <> inv_program inv /\
                    inv_program next = selected errorsInStderr result).
Proof.
  intros Hrun. revert i inv.
  induction Hrun as [p|c p|c rest count p fs Hfs|c rest count p fs r Hfs Heq
                 |c rest count p fs r calls e Hfs Hne Hrun IH];
    intros [|i] inv Hi; try done.
  - cbn in Hi. injection Hi as <-. by split_and!.
  - cbn in Hi. injection Hi as <-. by split_and!.
  - cbn in Hi. injection Hi as <-. split_and!; [done..|].
    intros next Hnext. cbn in Hnext. exists r. split_and!; [done..|].
    by destruct (IH 0%nat next Hnext) as (_ & _ & -> & _).
  - cbn in Hi. destruct (IH i inv Hi) as (Hfile & Hcount & _ & Hnext).
    split_and!; [done..|]. intros next Hn. apply (Hnext next Hn).
Qed.

(** How a run can stop. *)
Lemma Performed_exit counts count program calls e :
  Run counts count program calls e ->
  match e with
  | Converged p k =>
      exists inv result,
        last calls = Some inv /\ inv_program inv = p /\ inv_count inv = k /\
        inv_attempt inv = Completed result /\
        selected errorsInStderr result = p
  | InvocationFailed command =>
      command = compileCommand /\
      exists inv, last calls = Some inv /\ inv_attempt inv = RaisedException
  | ExhaustedBudget k =>
      last counts ∪ count = Some k /\ length calls = length counts /\
      Forall (Differs errorsInStderr) calls
  | CountUnbound => counts = [] /\ count = None
  end.
Proof.
  induction 1 as [p|c p|c rest count p fs Hfs|c rest count p fs r Hfs Heq
                 |c rest count p fs r calls e Hfs Hne Hrun IH].
  - done.
  - done.
  - split; [done|]. by eexists.
  - by eexists _, r.
  - assert (Differs errorsInStderr
              {| inv_count := c; inv_program := p; inv_files := fs;
                 inv_attempt := Completed r |}) as Hd by by exists r.
    destruct e as [p' k|command|k|].
    + destruct IH as (inv & r' & Hlast & ?). exists inv, r'.
      split; [|done]. rewrite last_cons. by rewrite Hlast.
    + destruct IH as (-> & inv & Hlast & ?). split; [done|]. exists inv.
      split; [|done]. rewrite last_cons. by rewrite Hlast.
    + destruct IH as (Hk & Hlen & Hall). rewrite last_count_step.
      split_and!; [done|cbn; by rewrite Hlen|by constructor].
    + by destruct IH.
Qed.

End Traces.

Lemma last_range (start stop : Z) :
  start < stop -> last (range start stop) = Some (stop - 1).
Proof.
  intros H. rewrite last_lookup, length_range. unfold range.
  rewrite lookup_seqZ_lt by lia. f_equal. lia.
Qed.

(** ** The three ways a record of invocations can end exclude each other *)

Lemma reproduced_not_raised errorsInStderr (made : list Invocation) :
  (exists inv, last made = Some inv /\ Reproduced errorsInStderr inv) ->
  (exists inv, last made = Some inv /\ inv_attempt inv = RaisedException) ->
  False.
Proof.
  intros (inv & Hlast & result & Ha & _) (inv' & Hlast' & Hr).
  rewrite Hlast in Hlast'. injection Hlast' as <-.
  rewrite Ha in Hr. discriminate Hr.
Qed.

Lemma reproduced_not_all_differ errorsInStderr (made : list Invocation) :
  (exists inv, last made = Some inv /\ Reproduced errorsInStderr inv) ->
  Forall (NotReproduced errorsInStderr) made ->
  False.
Proof.
  intros (inv & Hlast & result & Ha & Heq) Hall.
  rewrite last_lookup in Hlast. rewrite Forall_lookup in Hall.
  destruct (Hall _ _ Hlast) as (result' & Ha' & Hne).
  rewrite Ha in Ha'. injection Ha' as <-. by destruct Hne.
Qed.

Lemma raised_not_all_differ errorsInStderr (made : list Invocation) :
  (exists inv, last made = Some inv /\ inv_attempt inv = RaisedException) ->
  Forall (NotReproduced errorsInStderr) made ->
  False.
Proof.
  intros (inv & Hlast & Hr) Hall.
  rewrite last_lookup in Hlast. rewrite Forall_lookup in Hall.
  destruct (Hall _ _ Hlast) as (result & Ha & _).
  rewrite Hr in Ha. discriminate Ha.
Qed.

(** ** The search as a whole *)

Section SearchFacts.

Context {World : Type}.
Variable subprocess_run :
  list string -> World -> gmap string string ->
  World * gmap string string * Attempt.
Variable maxIterations : Z.
Variables (description progFile : string) (compileCommand : list string)
          (errorsInStderr : bool).

Abbreviation search :=
  (compileErrors_exit subprocess_run maxIterations description progFile
     compileCommand errorsInStderr).
Abbreviation called :=
  (compileErrors subprocess_run maxIterations description progFile
     compileCommand errorsInStderr).
Abbreviation submitted program st :=
  (<[progFile := program +:+ newline]> (files st)).

(** The state after line 33 has printed the description. *)
Abbreviation announced st :=
  {| files := files st; world := world st;
     sys_stdout := sys_stdout st +:+ (description +:+ ": ");
     invocations := invocations st |}.

Lemma search_unfold startingProgram (st : State World) :
  search startingProgram st =
    for_count subprocess_run progFile compileCommand errorsInStderr
      (range 1 (maxIterations + 1)) None startingProgram (announced st).
Proof.
  unfold compileErrors_exit, bind, print_end.
  by rewrite (string_app_nil_r (description +:+ ": ")).
Qed.

Lemma compileErrors_result startingProgram (st : State World) :
  called startingProgram st =
    (result_of (search startingProgram st).1, (search startingProgram st).2).
Proof.
  unfold compileErrors, bind, ret.
  by destruct (search startingProgram st).
Qed.

(** Every call of [compileErrors] is a run of the loop over
    [range(1, maxIterations+1)] from an unbound [count], and prints the
    description followed by the line of its exit. *)
Lemma search_performed startingProgram (st : State World) :
  Performed progFile compileCommand errorsInStderr
    (range 1 (maxIterations + 1)) None startingProgram
    (new_invocations st (search startingProgram st).2)
    (search startingProgram st).1 /\
  invocations (search startingProgram st).2
    = invocations st
      ++ new_invocations st (search startingProgram st).2 /\
  sys_stdout (search startingProgram st).2
    = sys_stdout st +:+ (description +:+ ": ")
      +:+ report progFile (search startingProgram st).1.
Proof.
  rewrite search_unfold.
  match goal with
  | |- context [for_count _ _ _ _ ?cs ?c ?p ?s] =>
      destruct (for_count_performed subprocess_run progFile compileCommand
                  errorsInStderr cs c p s)
        as (calls & Hinv & Hrun & Hout & _)
  end.
  cbn in Hinv, Hout. unfold new_invocations.
  rewrite Hinv, drop_app_length, Hout.
  by rewrite string_app_assoc.
Qed.

(** Every recorded attempt is what the transformer answered on the
    recorded files. *)
Lemma search_answered startingProgram (st : State World) :
  Forall (fun inv => exists w,
            (subprocess_run compileCommand w (inv_files inv)).2
            = inv_attempt inv)
    (new_invocations st (search startingProgram st).2).
Proof.
  rewrite search_unfold.
  match goal with
  | |- context [for_count _ _ _ _ ?cs ?c ?p ?s] =>
      destruct (for_count_performed subprocess_run progFile compileCommand
                  errorsInStderr cs c p s)
        as (calls & Hinv & _ & _ & Hans)
  end.
  cbn in Hinv. unfold new_invocations.
  by rewrite Hinv, drop_app_length.
Qed.

Lemma all_differ_exhausted startingProgram (st : State World) :
  1 <= maxIterations ->
  Forall (Differs errorsInStderr)
    (new_invocations st (search startingProgram st).2) ->
  (search startingProgram st).1 = ExhaustedBudget maxIterations /\
  Z.of_nat (length (new_invocations st (search startingProgram st).2))
    = maxIterations.
Proof.
  intros Hm Hall.
  destruct (search_performed startingProgram st) as (Hrun & _ & _).
  destruct (Performed_all_differ _ _ _ _ _ _ _ _ Hrun Hall) as [Hlen He].
  rewrite last_range in He by lia.
  replace (maxIterations + 1 - 1) with maxIterations in He by lia.
  rewrite Hlen, length_range. split; [done|lia].
Qed.

(** C3: with a budget of at least one, a search invokes the transformer
    at least once and at most [maxIterations] times, whatever the starting
    text and the transformer. *)
Theorem invocations_between_one_and_budget startingProgram
    (st : State World) :
  1 <= maxIterations ->
  (1 <= length (new_invocations st (search startingProgram st).2))%nat /\
  Z.of_nat (length (new_invocations st (search startingProgram st).2))
    <= maxIterations.
Proof.
  intros Hm.
  destruct (search_performed startingProgram st) as (Hrun & _ & _).
  split.
  - rewrite range_cons in Hrun by lia. eapply Performed_nonempty, Hrun.
  - apply Performed_length in Hrun. rewrite length_range in Hrun. lia.
Qed.

(** C2: if every invocation of the search completes with a captured
    output that differs from the candidate submitted to it, the search
    makes exactly [maxIterations] invocations, stops at
    [ExhaustedBudget maxIterations], returns [False] and reports
    "did not converge after maxIterations iterations". *)
Theorem never_equal_exhausts_budget startingProgram (st : State World) :
  1 <= maxIterations ->
  Forall (Differs errorsInStderr)
    (new_invocations st (search startingProgram st).2) ->
  (search startingProgram st).1 = ExhaustedBudget maxIterations /\
  Z.of_nat (length (new_invocations st (search startingProgram st).2))
    = maxIterations /\
  (called startingProgram st).1 = Returns false /\
  sys_stdout (search startingProgram st).2
    = sys_stdout st +:+ (description +:+ ": ")
      +:+ ("did not converge after " +:+ pretty maxIterations
           +:+ " iterations") +:+ newline.
Proof.
  intros Hm Hall.
  destruct (search_performed startingProgram st) as (_ & _ & Hout).
  destruct (all_differ_exhausted startingProgram st Hm Hall) as [He Hlen].
  rewrite compileErrors_result, Hout, He.
  by split_and!.
Qed.

(** C5: if the first invocation completes and the captured stream chosen
    by [errorsInStderr] (the standard error when it is set, the standard
    output otherwise) equals the starting text, the search stops at
    [Converged startingProgram 1] after exactly that one invocation,
    returns [True] and reports one iteration. *)
Theorem fixed_point_at_start_converges_at_once startingProgram
    (st : State World) w fs result :
  1 <= maxIterations ->
  subprocess_run compileCommand (world st) (submitted startingProgram st)
    = (w, fs, Completed result) ->
  (if errorsInStderr then stderr result else stdout result)
    = startingProgram ->
  (search startingProgram st).1 = Converged startingProgram 1 /\
  new_invocations st (search startingProgram st).2
    = [{| inv_count := 1; inv_program := startingProgram;
          inv_files := submitted startingProgram st;
          inv_attempt := Completed result |}] /\
  (called startingProgram st).1 = Returns true /\
  sys_stdout (search startingProgram st).2
    = sys_stdout st +:+ (description +:+ ": ")
      +:+ (progFile +:+ ", " +:+ pretty 1 +:+ " iterations, "
           +:+ pretty (length (splitlines startingProgram)) +:+ " lines")
      +:+ newline.
Proof.
  intros Hm Hrun Heq.
  assert (search startingProgram st
          = (Converged startingProgram 1,
             {| files := fs; world := w;
                sys_stdout :=
                  (sys_stdout st +:+ (description +:+ ": "))
                  +:+ report progFile (Converged startingProgram 1);
                invocations := invocations st ++
                  [{| inv_count := 1; inv_program := startingProgram;
                      inv_files := submitted startingProgram st;
                      inv_attempt := Completed result |}] |})) as Hs.
  { rewrite search_unfold, range_cons by lia. rewrite for_count_cons.
    by rewrite (loop_body_equal subprocess_run progFile compileCommand
                  errorsInStderr 1 startingProgram (announced st)
                  w fs result Hrun Heq). }
  rewrite compileErrors_result, Hs. unfold new_invocations. cbn.
  rewrite drop_app_length, string_app_assoc.
  by split_and!.
Qed.

(** C4: from the starting text "x", a transformer that always completes
    with "syntax error on line 1" on the selected stream makes the search
    stop at [Converged "syntax error on line 1" 2] after two invocations:
    the first output differs from "x", the second equals the candidate. *)
Theorem constant_diagnostic_converges_at_two (st : State World) :
  2 <= maxIterations ->
  (forall w fs, exists w' fs' result,
      subprocess_run compileCommand w fs = (w', fs', Completed result) /\
      selected errorsInStderr result = "syntax error on line 1") ->
  (search "x" st).1 = Converged "syntax error on line 1" 2 /\
  length (new_invocations st (search "x" st).2) = 2%nat /\
  (called "x" st).1 = Returns true.
Proof.
  intros Hm Hconst.
  rewrite compileErrors_result. unfold new_invocations.
  rewrite search_unfold.
  rewrite range_cons by lia. rewrite range_cons by lia.
  rewrite for_count_cons.
  match goal with
  | |- context [loop_body _ _ _ _ _ _ ?s] =>
      destruct (Hconst (world s) (submitted "x" s))
        as (w1 & fs1 & r1 & Hrun1 & Hsel1)
  end.
  rewrite (loop_body_differs _ _ _ _ _ _ _ _ _ _ Hrun1)
    by (rewrite Hsel1; discriminate).
  rewrite for_count_cons, Hsel1.
  match goal with
  | |- context [loop_body _ _ _ _ _ _ ?s] =>
      destruct (Hconst (world s) (submitted "syntax error on line 1" s))
        as (w2 & fs2 & r2 & Hrun2 & Hsel2)
  end.
  rewrite (loop_body_equal _ _ _ _ _ _ _ _ _ _ Hrun2 Hsel2). cbn.
  rewrite <- app_assoc, drop_app_length. by split_and!.
Qed.

(** C6: if the invocation at iteration [k+1] cannot be started, it is the
    last invocation of the search (no retry, no further iteration); the
    search stops at [InvocationFailed compileCommand] before any
    comparison for that iteration, returns [False] and reports the
    command; every earlier invocation completed without its comparison
    succeeding. *)
Theorem failed_invocation_ends_search startingProgram (st : State World)
    k inv :
  new_invocations st (search startingProgram st).2 !! k = Some inv ->
  inv_attempt inv = RaisedException ->
  inv_count inv = Z.of_nat k + 1 /\
  length (new_invocations st (search startingProgram st).2) = S k /\
  Forall (Differs errorsInStderr)
    (take k (new_invocations st (search startingProgram st).2)) /\
  (search startingProgram st).1 = InvocationFailed compileCommand /\
  (called startingProgram st).1 = Returns false /\
  sys_stdout (search startingProgram st).2
    = sys_stdout st +:+ (description +:+ ": ")
      +:+ ("Error: Unable to compile. Command: "
           +:+ join " " compileCommand) +:+ newline.
Proof.
  intros Hk Hraised.
  destruct (search_performed startingProgram st) as (Hrun & _ & Hout).
  destruct (Performed_failed_last _ _ _ _ _ _ _ _ _ _ Hrun Hk Hraised)
    as (Hlen & He & Hbefore).
  destruct (Performed_invocation _ _ _ _ _ _ _ _ _ _ Hrun Hk)
    as (_ & Hcount & _).
  apply lookup_range in Hcount.
  rewrite compileErrors_result, Hout, He.
  split_and!; [lia|done..].
Qed.

(** C7: when the invocation completes, the loop body stops at [Converged]
    exactly when the candidate and the selected output are the same
    string, and otherwise continues with the output as it is; so the
    candidate "x" followed by a line feed does not converge on the
    output "x". *)
Theorem convergence_is_exact_equality count program (st : State World)
    w fs result :
  subprocess_run compileCommand (world st) (submitted program st)
    = (w, fs, Completed result) ->
  ((loop_body subprocess_run progFile compileCommand errorsInStderr
      count program st).1 = Return (Converged program count)
   <-> program = selected errorsInStderr result) /\
  (program <> selected errorsInStderr result ->
   (loop_body subprocess_run progFile compileCommand errorsInStderr
      count program st).1 = Continue (selected errorsInStderr result)) /\
  (program = "x" +:+ newline -> selected errorsInStderr result = "x" ->
   (loop_body subprocess_run progFile compileCommand errorsInStderr
      count program st).1 = Continue "x").
Proof.
  intros Hrun.
  destruct (decide (selected errorsInStderr result = program))
    as [Heq|Hne].
  - rewrite (loop_body_equal _ _ _ _ _ _ _ _ _ _ Hrun Heq). cbn.
    split_and!; [done|by intros []|].
    intros -> Hx. rewrite Hx in Heq. discriminate Heq.
  - rewrite (loop_body_differs _ _ _ _ _ _ _ _ _ _ Hrun Hne). cbn.
    split_and!; [|done|by intros _ ->].
    split; [discriminate|]. intros Heq. by destruct Hne.
Qed.

(** C8: at every invocation of a search the artifact file holds the
    current candidate followed by one line feed; the iterations are
    numbered from 1; the first candidate is the starting text and each
    later candidate is the captured stream of the invocation before it
    (its standard error when [errorsInStderr] is set, its standard output
    otherwise), whatever that process did to the files. *)
Theorem artifact_holds_candidate startingProgram (st : State World) i inv :
  new_invocations st (search startingProgram st).2 !! i = Some inv ->
  inv_files inv !! progFile = Some (inv_program inv +:+ newline) /\
  inv_count inv = Z.of_nat i + 1 /\
  (i = 0%nat -> inv_program inv = startingProgram) /\
  (forall next,
     new_invocations st (search startingProgram st).2 !! S i = Some next ->
     exists result,
       inv_attempt inv = Completed result /\
       inv_program next
       = if errorsInStderr then stderr result else stdout result).
Proof.
  intros Hi.
  destruct (search_performed startingProgram st) as (Hrun & _ & _).
  destruct (Performed_invocation _ _ _ _ _ _ _ _ _ _ Hrun Hi)
    as (Hfile & Hcount & Hfirst & Hnext).
  apply lookup_range in Hcount.
  split_and!; [done|lia|done|].
  intros next Hn. destruct (Hnext next Hn) as (result & ? & _ & ?).
  by exists result.
Qed.

(** With a budget of at least one, the returned value is read off the
    last invocation. *)
Lemma value_by_last_invocation startingProgram (st : State World) :
  1 <= maxIterations ->
  exists value,
    (called startingProgram st).1 = Returns value /\
    (1 <= length (new_invocations st (called startingProgram st).2))%nat /\
    Z.of_nat (length (new_invocations st (called startingProgram st).2))
      <= maxIterations /\
    (value = true <->
     exists inv,
       last (new_invocations st (called startingProgram st).2) = Some inv /\
       Reproduced errorsInStderr inv) /\
    (value = false <->
     (exists inv,
        last (new_invocations st (called startingProgram st).2) = Some inv /\
        inv_attempt inv = RaisedException) \/
     (Z.of_nat (length (new_invocations st (called startingProgram st).2))
        = maxIterations /\
      Forall (NotReproduced errorsInStderr)
        (new_invocations st (called startingProgram st).2))) /\
    ((exists inv,
        last (new_invocations st (called startingProgram st).2) = Some inv /\
        inv_attempt inv = RaisedException) ->
     sys_stdout (called startingProgram st).2
       = sys_stdout st +:+ (description +:+ ": ")
         +:+ ("Error: Unable to compile. Command: "
              +:+ join " " compileCommand) +:+ newline) /\
    (Forall (NotReproduced errorsInStderr)
       (new_invocations st (called startingProgram st).2) ->
     sys_stdout (called startingProgram st).2
       = sys_stdout st +:+ (description +:+ ": ")
         +:+ ("did not converge after " +:+ pretty maxIterations
              +:+ " iterations") +:+ newline).
Proof.
  intros Hm.
  destruct (search_performed startingProgram st) as (Hrun & _ & Hout).
  pose proof (Performed_exit _ _ _ _ _ _ _ _ Hrun) as Hexit.
  pose proof (Performed_length _ _ _ _ _ _ _ _ Hrun) as Hlen.
  rewrite length_range in Hlen.
  assert (1 <= length (new_invocations st (search startingProgram st).2))%nat
    as Hone.
  { rewrite range_cons in Hrun by lia. eapply Performed_nonempty, Hrun. }
  rewrite compileErrors_result. cbn [fst snd].
  destruct (search startingProgram st).1 as [p k|command|k|] eqn:He.
  - destruct Hexit as (inv & result & Hlast & Hp & _ & Ha & Hsel).
    assert (exists inv,
              last (new_invocations st (search startingProgram st).2)
              = Some inv /\ Reproduced errorsInStderr inv) as HA.
    { exists inv. split; [done|]. exists result. split; [done|].
      rewrite Hp. exact Hsel. }
    exists true. split_and!; [done|done|lia|done| | |].
    + split; [done|]. intros [HB|[_ HC]]; exfalso.
      * exact (reproduced_not_raised _ _ HA HB).
      * exact (reproduced_not_all_differ _ _ HA HC).
    + intros HB. exfalso. exact (reproduced_not_raised _ _ HA HB).
    + intros HC. exfalso. exact (reproduced_not_all_differ _ _ HA HC).
  - destruct Hexit as (-> & inv & Hlast & Ha).
    assert (exists inv,
              last (new_invocations st (search startingProgram st).2)
              = Some inv /\ inv_attempt inv = RaisedException) as HB
      by by exists inv.
    exists false. split_and!; [done|done|lia| |by split; [left|]|done|].
    + split; [done|]. intros HA. exfalso.
      exact (reproduced_not_raised _ _ HA HB).
    + intros HC. exfalso. exact (raised_not_all_differ _ _ HB HC).
  - destruct Hexit as (Hk & Hfull & HC).
    rewrite last_range in Hk by lia. cbn in Hk. injection Hk as Hk.
    replace k with maxIterations in * by lia.
    rewrite length_range in Hfull.
    exists false. split_and!; [done|done|lia| | | |done].
    + split; [done|]. intros HA. exfalso.
      exact (reproduced_not_all_differ _ _ HA HC).
    + split; [|done]. intros _. right. split; [lia|done].
    + intros HB. exfalso. exact (raised_not_all_differ _ _ HB HC).
  - destruct Hexit as [Hnil _]. rewrite range_cons in Hnil by lia.
    discriminate Hnil.
Qed.

(** C1, as amended: from the starting text "" and with the primary stream
    selected, a transformer that echoes the artifact file never reaches a
    fixed point.  At iteration [i+1] the candidate is [i] line feeds, the
    file and hence the echoed output hold [i+1] line feeds, so the
    comparison fails; the search makes [maxIterations] invocations,
    stops at [ExhaustedBudget maxIterations] and returns [False]. *)
Theorem echo_never_converges (st : State World) :
  1 <= maxIterations ->
  errorsInStderr = false ->
  (forall w fs, exists w' fs' result,
      subprocess_run compileCommand w fs = (w', fs', Completed result) /\
      stdout result = default "" (fs !! progFile)) ->
  (search "" st).1 = ExhaustedBudget maxIterations /\
  (called "" st).1 = Returns false /\
  Z.of_nat (length (new_invocations st (search "" st).2))
    = maxIterations /\
  forall i inv,
    new_invocations st (search "" st).2 !! i = Some inv ->
    inv_program inv = with_newlines i "" /\
    inv_files inv !! progFile = Some (with_newlines (S i) "") /\
    exists result, inv_attempt inv = Completed result /\
                   stdout result = with_newlines (S i) "".
Proof.
  intros Hm Hflag Hecho.
  pose proof (search_performed "" st) as (Hrun & _ & _).
  pose proof (search_answered "" st) as Hans.
  assert (forall i inv,
    new_invocations st (search "" st).2 !! i = Some inv ->
    exists result, inv_attempt inv = Completed result /\
                   stdout result = inv_program inv +:+ newline) as Hout.
  { intros i inv Hi.
    destruct (Performed_invocation _ _ _ _ _ _ _ _ _ _ Hrun Hi)
      as (Hfile & _).
    rewrite Forall_lookup in Hans. destruct (Hans i inv Hi) as [w Hw].
    destruct (Hecho w (inv_files inv)) as (w' & fs' & result & Hr & Hs).
    rewrite Hr in Hw. cbn in Hw. rewrite Hfile in Hs.
    by exists result. }
  assert (Forall (Differs errorsInStderr)
            (new_invocations st (search "" st).2)) as Hall.
  { apply Forall_lookup. intros i inv Hi.
    destruct (Hout i inv Hi) as (result & Hr & Hs).
    exists result. split; [done|]. unfold selected.
    rewrite Hflag, Hs. apply newline_changes. }
  destruct (all_differ_exhausted "" st Hm Hall) as (He & Hlen).
  split_and!; [done|by rewrite compileErrors_result, He|done|].
  induction i as [|i IH]; intros inv Hi.
  - destruct (Performed_invocation _ _ _ _ _ _ _ _ _ _ Hrun Hi)
      as (Hfile & _ & Hfirst & _).
    destruct (Hout _ _ Hi) as (result & Hr & Hs).
    rewrite (Hfirst eq_refl) in Hfile, Hs.
    split_and!; [by apply Hfirst|done|by exists result].
  - destruct (lookup_lt_is_Some_2
                (new_invocations st (search "" st).2) i) as [prev Hprev].
    { apply lookup_lt_Some in Hi. lia. }
    destruct (IH prev Hprev) as (Hp & _ & result & Hr & Hs).
    destruct (Performed_invocation _ _ _ _ _ _ _ _ _ _ Hrun Hprev)
      as (_ & _ & _ & Hnext).
    destruct (Hnext inv Hi) as (result' & Hr' & _ & Hprog).
    rewrite Hr in Hr'. injection Hr' as <-.
    unfold selected in Hprog. rewrite Hflag, Hs in Hprog.
    destruct (Performed_invocation _ _ _ _ _ _ _ _ _ _ Hrun Hi)
      as (Hfile & _).
    destruct (Hout _ _ Hi) as (result2 & Hr2 & Hs2).
    rewrite Hprog in Hfile, Hs2.
    split_and!; [done|done|by exists result2].
Qed.

End SearchFacts.

(** ** Two transformers that differ only in their exit statuses *)

Section ExitStatus.

Context {W1 W2 : Type}.
Variable R : W1 -> W2 -> Prop.
Variable run1 :
  list string -> W1 -> gmap string string ->
  W1 * gmap string string * Attempt.
Variable run2 :
  list string -> W2 -> gmap string string ->
  W2 * gmap string string * Attempt.
Variable maxIterations : Z.
Variables (description progFile : string) (compileCommand : list string)
          (errorsInStderr : bool).

Hypothesis streams_agree : forall w1 w2 fs,
  R w1 w2 ->
  same_streams R (run1 compileCommand w1 fs) (run2 compileCommand w2 fs).

Lemma for_count_same_streams counts count program
    (st1 : State W1) (st2 : State W2) :
  same_observables R st1 st2 ->
  (for_count run1 progFile compileCommand errorsInStderr
     counts count program st1).1
  = (for_count run2 progFile compileCommand errorsInStderr
       counts count program st2).1 /\
  same_observables R
    (for_count run1 progFile compileCommand errorsInStderr
       counts count program st1).2
    (for_count run2 progFile compileCommand errorsInStderr
       counts count program st2).2.
Proof.
  revert count program st1 st2.
  induction counts as [|c rest IH];
    intros count program st1 st2 (Hfiles & Hworld & Hout & Hlen).
  - destruct count as [k|]; cbn; [|done].
    split; [done|]. unfold same_observables; cbn. by rewrite Hout.
  - rewrite !for_count_cons.
    pose proof (streams_agree (world st1) (world st2)
                  (<[progFile := program +:+ newline]> (files st1)) Hworld)
      as Hsame.
    rewrite Hfiles in Hsame at 2.
    destruct (run1 compileCommand (world st1)
                (<[progFile := program +:+ newline]> (files st1)))
      as [[w1 fs1] a1] eqn:Hrun1.
    destruct (run2 compileCommand (world st2)
                (<[progFile := program +:+ newline]> (files st2)))
      as [[w2 fs2] a2] eqn:Hrun2.
    destruct Hsame as (Hw & Hfs & Hattempt). cbn in Hw, Hfs, Hattempt.
    destruct a1 as [r1|], a2 as [r2|]; try done.
    + destruct Hattempt as [Hso Hse].
      assert (selected errorsInStderr r1 = selected errorsInStderr r2)
        as Hsel by (unfold selected; by destruct errorsInStderr).
      destruct (decide (selected errorsInStderr r1 = program))
        as [Heq|Hne].
      * rewrite (loop_body_equal _ _ _ _ _ _ _ _ _ _ Hrun1 Heq).
        rewrite Hsel in Heq.
        rewrite (loop_body_equal _ _ _ _ _ _ _ _ _ _ Hrun2 Heq).
        split; [done|]. unfold same_observables; cbn.
        by rewrite Hout, !length_app, Hlen.
      * rewrite (loop_body_differs _ _ _ _ _ _ _ _ _ _ Hrun1 Hne).
        rewrite Hsel in Hne.
        rewrite (loop_body_differs _ _ _ _ _ _ _ _ _ _ Hrun2 Hne).
        rewrite Hsel. apply IH. unfold same_observables; cbn.
        by rewrite !length_app, Hlen.
    + rewrite (loop_body_raised _ _ _ _ _ _ _ _ _ Hrun1).
      rewrite (loop_body_raised _ _ _ _ _ _ _ _ _ Hrun2).
      split; [done|]. unfold same_observables; cbn.
      by rewrite Hout, !length_app, Hlen.
Qed.

(** C9: two transformers that agree, invocation by invocation, on
    whether the process ran and on both captured streams, but whose exit
    statuses are unrelated, lead the search to the same exit (the same
    outcome, iteration count and final text), the same returned value,
    the same report, the same files and the same number of invocations;
    and a completed invocation never leads to [InvocationFailed],
    whatever its exit status. *)
Theorem exit_status_is_ignored startingProgram
    (st1 : State W1) (st2 : State W2) :
  same_observables R st1 st2 ->
  (compileErrors_exit run1 maxIterations description progFile
     compileCommand errorsInStderr startingProgram st1).1
  = (compileErrors_exit run2 maxIterations description progFile
       compileCommand errorsInStderr startingProgram st2).1 /\
  (compileErrors run1 maxIterations description progFile
     compileCommand errorsInStderr startingProgram st1).1
  = (compileErrors run2 maxIterations description progFile
       compileCommand errorsInStderr startingProgram st2).1 /\
  same_observables R
    (compileErrors_exit run1 maxIterations description progFile
       compileCommand errorsInStderr startingProgram st1).2
    (compileErrors_exit run2 maxIterations description progFile
       compileCommand errorsInStderr startingProgram st2).2 /\
  (forall count program st w fs result,
     run1 compileCommand (world st)
       (<[progFile := program +:+ newline]> (files st))
       = (w, fs, Completed result) ->
     (loop_body run1 progFile compileCommand errorsInStderr
        count program st).1
     <> Return (InvocationFailed compileCommand)).
Proof.
  intros (Hfiles & Hworld & Hout & Hlen).
  rewrite !compileErrors_result, !search_unfold.
  match goal with
  | |- context [for_count run1 _ _ _ ?cs ?c ?p ?s1] =>
      match goal with
      | |- context [for_count run2 _ _ _ _ _ _ ?s2] =>
          destruct (for_count_same_streams cs c p s1 s2) as [He Hobs]
      end
  end.
  { unfold same_observables; cbn. by rewrite Hout. }
  cbn [fst snd]. rewrite He. split_and!; [done..|].
  intros count program st w fs result Hrun.
  destruct (decide (selected errorsInStderr result = program))
    as [Heq|Hne].
  - by rewrite (loop_body_equal _ _ _ _ _ _ _ _ _ _ Hrun Heq).
  - by rewrite (loop_body_differs _ _ _ _ _ _ _ _ _ _ Hrun Hne).
Qed.

End ExitStatus.

(** ** What the caller of [compileErrors] learns *)

(** C10: with the budget of the source, [compileErrors] returns a boolean
    after between one and [maxIterations] invocations.  It returns [True]
    exactly when the last invocation reproduced its input, that is, it
    completed and the captured stream chosen by [errorsInStderr] equals
    the program submitted to it.  It returns [False] exactly when the
    last invocation could not be started or when all [maxIterations]
    invocations completed without reproducing their input; the value is
    the same in both cases, and only the report line differs: the command
    in the first case, the number of iterations in the second. *)
Theorem compileErrors_returns_a_boolean {World : Type}
    (subprocess_run : list string -> World -> gmap string string ->
                      World * gmap string string * Attempt)
    (description progFile : string) (compileCommand : list string)
    (errorsInStderr : bool) (startingProgram : string) (st : State World) :
  exists value,
    (compileErrors subprocess_run maxIterations description progFile
       compileCommand errorsInStderr startingProgram st).1
    = Returns value /\
    (1 <= length (new_invocations st
            (compileErrors subprocess_run maxIterations description progFile
               compileCommand errorsInStderr startingProgram st).2))%nat /\
    Z.of_nat (length (new_invocations st
            (compileErrors subprocess_run maxIterations description progFile
               compileCommand errorsInStderr startingProgram st).2))
      <= maxIterations /\
    (value = true <->
     exists inv,
       last (new_invocations st
               (compileErrors subprocess_run maxIterations description
                  progFile compileCommand errorsInStderr startingProgram
                  st).2) = Some inv /\
       Reproduced errorsInStderr inv) /\
    (value = false <->
     (exists inv,
        last (new_invocations st
                (compileErrors subprocess_run maxIterations description
                   progFile compileCommand errorsInStderr startingProgram
                   st).2) = Some inv /\
        inv_attempt inv = RaisedException) \/
     (Z.of_nat (length (new_invocations st
             (compileErrors subprocess_run maxIterations description
                progFile compileCommand errorsInStderr startingProgram
                st).2)) = maxIterations /\
      Forall (NotReproduced errorsInStderr)
        (new_invocations st
           (compileErrors subprocess_run maxIterations description progFile
              compileCommand errorsInStderr startingProgram st).2))) /\
    ((exists inv,
        last (new_invocations st
                (compileErrors subprocess_run maxIterations description
                   progFile compileCommand errorsInStderr startingProgram
                   st).2) = Some inv /\
        inv_attempt inv = RaisedException) ->
     sys_stdout (compileErrors subprocess_run maxIterations description
                   progFile compileCommand errorsInStderr startingProgram
                   st).2
       = sys_stdout st +:+ (description +:+ ": ")
         +:+ ("Error: Unable to compile. Command: "
              +:+ join " " compileCommand) +:+ newline) /\
    (Forall (NotReproduced errorsInStderr)
       (new_invocations st
          (compileErrors subprocess_run maxIterations description progFile
             compileCommand errorsInStderr startingProgram st).2) ->
     sys_stdout (compileErrors subprocess_run maxIterations description
                   progFile compileCommand errorsInStderr startingProgram
                   st).2
       = sys_stdout st +:+ (description +:+ ": ")
         +:+ ("did not converge after " +:+ pretty maxIterations
              +:+ " iterations") +:+ newline) /\
    ("Error: Unable to compile. Command: " +:+ join " " compileCommand)
      +:+ newline
    <> ("did not converge after " +:+ pretty maxIterations +:+ " iterations")
       +:+ newline.
Proof.
  destruct (value_by_last_invocation subprocess_run maxIterations
              description progFile compileCommand errorsInStderr
              startingProgram st ltac:(unfold maxIterations; lia))
    as (value & Hret & Hone & Hmax & Htrue & Hfalse & Hfail & Hexh).
  exists value. split_and!; [done..|].
  cbv [String.append]. discriminate.
Qed.

(** ** The claims on concrete runs *)

(** With a budget below one the loop body never runs and line 51 reads the
    unbound [count]: this is why the facts above ask for a budget of at
    least one. *)
Lemma empty_budget_raises {World : Type}
    (subprocess_run : list string -> World -> gmap string string ->
                      World * gmap string string * Attempt)
    (budget : Z) description progFile compileCommand errorsInStderr
    startingProgram (st : State World) :
  budget <= 0 ->
  (compileErrors subprocess_run budget description progFile compileCommand
     errorsInStderr startingProgram st).1 = Raises "UnboundLocalError".
Proof.
  intros H. rewrite compileErrors_result, search_unfold.
  by rewrite range_nil by lia.
Qed.

(** The script's second run, with a compiler that always complains in the
    same words. *)
Lemma invocations_between_one_and_budget_witness :
  1 <= maxIterations /\
  (1 <= length (new_invocations (initial ∅ tt)
          (compileErrors_exit (complain "syntax error on line 1" 1)
             maxIterations "Python" "prog.py" ["py"; "prog.py"] true "x"
             (initial ∅ tt)).2))%nat /\
  Z.of_nat (length (new_invocations (initial ∅ tt)
          (compileErrors_exit (complain "syntax error on line 1" 1)
             maxIterations "Python" "prog.py" ["py"; "prog.py"] true "x"
             (initial ∅ tt)).2)) <= maxIterations.
Proof.
  assert (1 <= maxIterations) as H by (unfold maxIterations; lia).
  split; [exact H|].
  exact (invocations_between_one_and_budget
           (complain "syntax error on line 1" 1) maxIterations
           "Python" "prog.py" ["py"; "prog.py"] true "x" (initial ∅ tt) H).
Defined.

(** A process that echoes the file, started from "x". *)
Lemma never_equal_exhausts_budget_witness :
  (compileErrors_exit cat_file maxIterations "Echo" "prog.txt"
     ["cat"; "prog.txt"] false "x" (initial ∅ tt)).1
  = ExhaustedBudget maxIterations /\
  Z.of_nat (length (new_invocations (initial ∅ tt)
     (compileErrors_exit cat_file maxIterations "Echo" "prog.txt"
        ["cat"; "prog.txt"] false "x" (initial ∅ tt)).2)) = maxIterations.
Proof.
  assert (1 <= maxIterations) as H by (unfold maxIterations; lia).
  assert (Forall (Differs false)
            (new_invocations (initial ∅ tt)
               (compileErrors_exit cat_file maxIterations "Echo" "prog.txt"
                  ["cat"; "prog.txt"] false "x" (initial ∅ tt)).2)) as Hall.
  { vm_compute.
    repeat (constructor; [eexists; split; [reflexivity|discriminate]|]).
    constructor. }
  destruct (never_equal_exhausts_budget cat_file maxIterations "Echo"
              "prog.txt" ["cat"; "prog.txt"] false "x" (initial ∅ tt) H Hall)
    as (He & Hlen & _).
  exact (conj He Hlen).
Defined.

(** A compiler that answers "x" on its standard error and a banner on its
    standard output, with the standard error selected and "x" as the
    starting program. *)
Lemma fixed_point_at_start_converges_at_once_witness :
  (compileErrors_exit (emit "banner" "x" 1) maxIterations "Python"
     "prog.py" ["py"; "prog.py"] true "x" (initial ∅ tt)).1
  = Converged "x" 1 /\
  (compileErrors (emit "banner" "x" 1) maxIterations "Python"
     "prog.py" ["py"; "prog.py"] true "x" (initial ∅ tt)).1
  = Returns true /\
  sys_stdout (compileErrors_exit (emit "banner" "x" 1) maxIterations
                "Python" "prog.py" ["py"; "prog.py"] true "x"
                (initial ∅ tt)).2
  = "Python: prog.py, 1 iterations, 1 lines" +:+ newline.
Proof.
  assert (1 <= maxIterations) as H by (unfold maxIterations; lia).
  destruct (fixed_point_at_start_converges_at_once (emit "banner" "x" 1)
              maxIterations "Python" "prog.py" ["py"; "prog.py"]
              true "x" (initial ∅ tt) tt
              (<["prog.py" := "x" +:+ newline]> ∅)
              {| args := ["py"; "prog.py"]; returncode := 1;
                 stdout := "banner"; stderr := "x" |}
              H eq_refl eq_refl) as (He & _ & Hret & Hout).
  exact (conj He (conj Hret Hout)).
Defined.

(** The constant message on the standard error, with the budget of the
    script. *)
Lemma constant_diagnostic_converges_at_two_witness :
  (compileErrors_exit (complain "syntax error on line 1" 1) maxIterations
     "Python" "prog.py" ["py"; "prog.py"] true "x" (initial ∅ tt)).1
  = Converged "syntax error on line 1" 2.
Proof.
  assert (2 <= maxIterations) as H by (unfold maxIterations; lia).
  refine (proj1 (constant_diagnostic_converges_at_two
                   (complain "syntax error on line 1" 1) maxIterations
                   "Python" "prog.py" ["py"; "prog.py"] true
                   (initial ∅ tt) H _)).
  intros w fs. eexists _, _, _. split; reflexivity.
Defined.

(** A shell that can be started twice: the third invocation fails and is
    the last. *)
Lemma failed_invocation_ends_search_witness :
  length (new_invocations (initial ∅ 2%nat)
     (compileErrors_exit flaky maxIterations "Shell script" "prog.sh"
        ["sh"; "prog.sh"] true "x" (initial ∅ 2%nat)).2) = 3%nat /\
  (compileErrors_exit flaky maxIterations "Shell script" "prog.sh"
     ["sh"; "prog.sh"] true "x" (initial ∅ 2%nat)).1
  = InvocationFailed ["sh"; "prog.sh"] /\
  (compileErrors flaky maxIterations "Shell script" "prog.sh"
     ["sh"; "prog.sh"] true "x" (initial ∅ 2%nat)).1 = Returns false.
Proof.
  edestruct (failed_invocation_ends_search flaky maxIterations
               "Shell script" "prog.sh" ["sh"; "prog.sh"] true "x"
               (initial ∅ 2%nat) 2) as (_ & Hlen & _ & He & Hret & _).
  - vm_compute. reflexivity.
  - reflexivity.
  - exact (conj Hlen (conj He Hret)).
Defined.

(** The candidate "x" with a line feed against the output "x". *)
Lemma convergence_is_exact_equality_witness :
  (loop_body (complain "x" 1) "prog.py" ["py"; "prog.py"] true 1
     ("x" +:+ newline) (initial ∅ tt)).1 = Continue "x".
Proof.
  destruct (convergence_is_exact_equality (complain "x" 1) "prog.py"
              ["py"; "prog.py"] true 1 ("x" +:+ newline) (initial ∅ tt) tt
              (<["prog.py" := ("x" +:+ newline) +:+ newline]> ∅)
              {| args := ["py"; "prog.py"]; returncode := 1;
                 stdout := ""; stderr := "x" |}
              eq_refl) as (_ & _ & Hx).
  exact (Hx eq_refl eq_refl).
Defined.

(** A process that overwrites the artifact and writes to both streams: the
    second candidate is what the first invocation wrote to its standard
    error, not what it left in the file or wrote to its standard output. *)
Lemma artifact_holds_candidate_witness :
  exists first second result,
    new_invocations (initial ∅ tt)
      (compileErrors_exit clobber maxIterations "Shell script" "prog.sh"
         ["sh"; "prog.sh"] true "x" (initial ∅ tt)).2 !! 0%nat
    = Some first /\
    new_invocations (initial ∅ tt)
      (compileErrors_exit clobber maxIterations "Shell script" "prog.sh"
         ["sh"; "prog.sh"] true "x" (initial ∅ tt)).2 !! 1%nat
    = Some second /\
    inv_program first = "x" /\
    inv_files first !! "prog.sh" = Some ("x" +:+ newline) /\
    inv_attempt first = Completed result /\
    stderr result = "x" +:+ newline +:+ "!" /\
    stdout result = "ignored" /\
    inv_program second = stderr result /\
    inv_program second = "x" +:+ newline +:+ "!" /\
    inv_files second !! "prog.sh"
    = Some (("x" +:+ newline +:+ "!") +:+ newline).
Proof.
  edestruct (artifact_holds_candidate clobber maxIterations "Shell script"
               "prog.sh" ["sh"; "prog.sh"] true "x" (initial ∅ tt) 0)
    as (Hfile1 & _ & Hfirst & Hnext).
  { vm_compute. reflexivity. }
  edestruct (artifact_holds_candidate clobber maxIterations "Shell script"
               "prog.sh" ["sh"; "prog.sh"] true "x" (initial ∅ tt) 1)
    as (Hfile2 & _).
  { vm_compute. reflexivity. }
  edestruct Hnext as (result & Ha & Hprog).
  { vm_compute. reflexivity. }
  eexists _, _, result.
  split; [vm_compute; reflexivity|].
  split; [vm_compute; reflexivity|].
  split; [exact (Hfirst eq_refl)|].
  split; [exact Hfile1|].
  split; [exact Ha|].
  injection Ha as <-.
  split; [reflexivity|].
  split; [reflexivity|].
  split; [exact Hprog|].
  split; [exact Hprog|].
  exact Hfile2.
Defined.

(** The same messages with exit status 1 and with exit status 0. *)
Lemma exit_status_is_ignored_witness :
  (compileErrors_exit (complain "syntax error on line 1" 1) maxIterations
     "Python" "prog.py" ["py"; "prog.py"] true "x" (initial ∅ tt)).1
  = (compileErrors_exit (complain "syntax error on line 1" 0) maxIterations
       "Python" "prog.py" ["py"; "prog.py"] true "x" (initial ∅ tt)).1 /\
  (compileErrors (complain "syntax error on line 1" 1) maxIterations
     "Python" "prog.py" ["py"; "prog.py"] true "x" (initial ∅ tt)).1
  = (compileErrors (complain "syntax error on line 1" 0) maxIterations
       "Python" "prog.py" ["py"; "prog.py"] true "x" (initial ∅ tt)).1.
Proof.
  destruct (exit_status_is_ignored (fun _ _ : unit => True)
              (complain "syntax error on line 1" 1)
              (complain "syntax error on line 1" 0)
              maxIterations "Python" "prog.py" ["py"; "prog.py"] true
              (fun w1 w2 fs _ => conj I (conj eq_refl (conj eq_refl eq_refl)))
              "x" (initial ∅ tt) (initial ∅ tt)
              (conj eq_refl (conj I (conj eq_refl eq_refl))))
    as (He & Hret & _).
  exact (conj He Hret).
Defined.

(** A run that returns [True] (the constant message on the standard
    error, a banner on the standard output) and two runs that return
    [False]: a missing executable and an echo that uses up the budget. *)
Lemma compileErrors_returns_a_boolean_witness :
  (compileErrors (emit "banner" "syntax error on line 1" 1) maxIterations
     "Python" "prog.py" ["py"; "prog.py"] true "x" (initial ∅ tt)).1
  = Returns true /\
  (exists inv,
     last (new_invocations (initial ∅ tt)
             (compileErrors (emit "banner" "syntax error on line 1" 1)
                maxIterations "Python" "prog.py" ["py"; "prog.py"] true
                "x" (initial ∅ tt)).2) = Some inv /\
     Reproduced true inv /\
     inv_program inv = "syntax error on line 1") /\
  (compileErrors no_such_command maxIterations "Perl" "prog.pl"
     ["perl"; "prog.pl"] true "1x" (initial ∅ tt)).1 = Returns false /\
  sys_stdout (compileErrors no_such_command maxIterations "Perl" "prog.pl"
                ["perl"; "prog.pl"] true "1x" (initial ∅ tt)).2
  = "Perl: Error: Unable to compile. Command: perl prog.pl" +:+ newline /\
  (compileErrors cat_file maxIterations "Echo" "prog.txt"
     ["cat"; "prog.txt"] false "" (initial ∅ tt)).1 = Returns false /\
  sys_stdout (compileErrors cat_file maxIterations "Echo" "prog.txt"
                ["cat"; "prog.txt"] false "" (initial ∅ tt)).2
  = "Echo: did not converge after 10 iterations" +:+ newline.
Proof.
  destruct (compileErrors_returns_a_boolean
              (emit "banner" "syntax error on line 1" 1) "Python" "prog.py"
              ["py"; "prog.py"] true "x" (initial ∅ tt))
    as (v1 & Hv1 & _ & _ & Ht1 & _).
  destruct (compileErrors_returns_a_boolean no_such_command "Perl"
              "prog.pl" ["perl"; "prog.pl"] true "1x" (initial ∅ tt))
    as (v2 & Hv2 & _ & _ & _ & Hf2 & Hout2 & _).
  destruct (compileErrors_returns_a_boolean cat_file "Echo" "prog.txt"
              ["cat"; "prog.txt"] false "" (initial ∅ tt))
    as (v3 & Hv3 & _ & _ & _ & Hf3 & _ & Hout3 & _).
  assert (v1 = true) as ->.
  { apply Ht1. vm_compute. eexists. split; [reflexivity|].
    eexists. split; reflexivity. }
  assert (exists inv,
            last (new_invocations (initial ∅ tt)
                    (compileErrors no_such_command maxIterations "Perl"
                       "prog.pl" ["perl"; "prog.pl"] true "1x"
                       (initial ∅ tt)).2) = Some inv /\
            inv_attempt inv = RaisedException) as Hraised.
  { vm_compute. eexists. split; reflexivity. }
  assert (Forall (NotReproduced false)
            (new_invocations (initial ∅ tt)
               (compileErrors cat_file maxIterations "Echo" "prog.txt"
                  ["cat"; "prog.txt"] false "" (initial ∅ tt)).2))
    as Hall.
  { vm_compute.
    repeat (constructor; [eexists; split; [reflexivity|discriminate]|]).
    constructor. }
  assert (v2 = false) as -> by (apply Hf2; left; exact Hraised).
  assert (v3 = false) as ->.
  { apply Hf3. right. split; [vm_compute; reflexivity|exact Hall]. }
  destruct (proj1 Ht1 eq_refl) as (inv & Hlast & Hrep).
  assert (inv_program inv = "syntax error on line 1") as Hprog.
  { revert Hlast. vm_compute. intros Hlast. injection Hlast as <-.
    reflexivity. }
  exact (conj Hv1 (conj (ex_intro _ inv (conj Hlast (conj Hrep Hprog)))
           (conj Hv2 (conj (Hout2 Hraised) (conj Hv3 (Hout3 Hall)))))).
Defined.

(** The echoing process started from the empty text. *)
Lemma echo_never_converges_witness :
  (compileErrors_exit cat_file maxIterations "Echo" "prog.txt"
     ["cat"; "prog.txt"] false "" (initial ∅ tt)).1
  = ExhaustedBudget maxIterations /\
  (compileErrors cat_file maxIterations "Echo" "prog.txt"
     ["cat"; "prog.txt"] false "" (initial ∅ tt)).1 = Returns false.
Proof.
  assert (1 <= maxIterations) as H by (unfold maxIterations; lia).
  assert (forall (w : unit) (fs : gmap string string),
            exists w' fs' result,
              cat_file ["cat"; "prog.txt"] w fs = (w', fs', Completed result)
              /\ stdout result = default "" (fs !! "prog.txt")) as Hecho.
  { intros w fs. eexists _, _, _. split; reflexivity. }
  destruct (echo_never_converges cat_file maxIterations "Echo" "prog.txt"
              ["cat"; "prog.txt"] false (initial ∅ tt) H eq_refl Hecho)
    as (He & Hret & _).
  exact (conj He Hret).
Defined.

(** C1, as stated, fails: the echoing transformer started from "" does not
    converge at iteration 1, because the file it echoes already carries
    the line feed that the candidate lacks. *)
Lemma echo_of_empty_does_not_converge_at_one :
  (compileErrors_exit cat_file maxIterations "Echo" "prog.txt"
     ["cat"; "prog.txt"] false "" (initial ∅ tt)).1 <> Converged "" 1 /\
  (compileErrors_exit cat_file maxIterations "Echo" "prog.txt"
     ["cat"; "prog.txt"] false "" (initial ∅ tt)).1 = ExhaustedBudget 10 /\
  head (new_invocations (initial ∅ tt)
          (compileErrors_exit cat_file maxIterations "Echo" "prog.txt"
             ["cat"; "prog.txt"] false "" (initial ∅ tt)).2)
  = Some {| inv_count := 1; inv_program := "";
            inv_files := <["prog.txt" := newline]> ∅;
            inv_attempt :=
              Completed {| args := ["cat"; "prog.txt"]; returncode := 0;
                           stdout := newline; stderr := "" |} |}.
Proof. split_and!; [by vm_compute|by vm_compute..]. Qed.

(** ** Further properties of the search *)

Lemma splitlines_from_collecting (line s : string) :
  splitlines_from false (Some line) s <> [].
Proof.
  revert line. induction s as [|c s IH]; intros line; [done|].
  cbn. destruct (is_line_boundary c); [done|apply IH].
Qed.

(** X10: the number of lines in the report of a fixed point is zero exactly
    when the program is empty. *)
Theorem no_lines_only_when_empty (program : string) :
  length (splitlines program) = 0%nat <-> program = "".
Proof.
  split; [|by intros ->].
  destruct program as [|c rest]; [done|].
  unfold splitlines. cbn.
  destruct (is_line_boundary c); [done|].
  intros H. apply length_zero_iff_nil in H.
  by apply splitlines_from_collecting in H.
Qed.

Section SearchProperties.

Context {World : Type}.
Variable subprocess_run :
  list string -> World -> gmap string string ->
  World * gmap string string * Attempt.
Variable maxIterations : Z.
Variables (description progFile : string) (compileCommand : list string)
          (errorsInStderr : bool).

Abbreviation search :=
  (compileErrors_exit subprocess_run maxIterations description progFile
     compileCommand errorsInStderr).
Abbreviation called :=
  (compileErrors subprocess_run maxIterations description progFile
     compileCommand errorsInStderr).
Abbreviation loop :=
  (for_count subprocess_run progFile compileCommand errorsInStderr).
Abbreviation submitted program st :=
  (<[progFile := program +:+ newline]> (files st)).
Abbreviation announced st :=
  {| files := files st; world := world st;
     sys_stdout := sys_stdout st +:+ (description +:+ ": ");
     invocations := invocations st |}.

(** X1: with a budget below one, [compileErrors] prints the description,
    makes no invocation, leaves the files alone and raises
    [UnboundLocalError] instead of returning. *)
Theorem empty_budget_only_announces startingProgram (st : State World) :
  maxIterations <= 0 ->
  (called startingProgram st).1 = Raises "UnboundLocalError" /\
  (called startingProgram st).2 = announced st /\
  new_invocations st (called startingProgram st).2 = [].
Proof.
  intros Hm. rewrite compileErrors_result, search_unfold.
  rewrite range_nil by lia. cbn. unfold new_invocations. cbn.
  rewrite drop_all. by split_and!.
Qed.

(** X3: a search that stops at [Converged program count] made exactly
    [count] invocations; the last one found [program] followed by one line
    feed in the artifact file and the transformer answered [program] on
    the selected stream, while every earlier invocation completed with an
    output different from its candidate. *)
Theorem converged_program_is_fixed_point startingProgram (st : State World)
    program count :
  (search startingProgram st).1 = Converged program count ->
  Z.of_nat (length (new_invocations st (search startingProgram st).2))
    = count /\
  (exists inv result w,
     last (new_invocations st (search startingProgram st).2) = Some inv /\
     inv_program inv = program /\
     inv_files inv !! progFile = Some (program +:+ newline) /\
     (subprocess_run compileCommand w (inv_files inv)).2
       = Completed result /\
     selected errorsInStderr result = program) /\
  (forall i inv next,
     new_invocations st (search startingProgram st).2 !! i = Some inv ->
     new_invocations st (search startingProgram st).2 !! S i = Some next ->
     Differs errorsInStderr inv).
Proof.
  intros He.
  destruct (search_performed subprocess_run maxIterations description
              progFile compileCommand errorsInStderr startingProgram st)
    as (Hrun & _ & _).
  pose proof (search_answered subprocess_run maxIterations description
                progFile compileCommand errorsInStderr startingProgram st)
    as Hans.
  pose proof (Performed_exit _ _ _ _ _ _ _ _ Hrun) as Hexit.
  rewrite He in Hexit.
  destruct Hexit as (inv & result & Hlast & Hp & Hc & Ha & Hsel).
  pose proof Hlast as Hi. rewrite last_lookup in Hi.
  destruct (Performed_invocation _ _ _ _ _ _ _ _ _ _ Hrun Hi)
    as (Hfile & Hcount & _).
  apply lookup_range in Hcount.
  rewrite Forall_lookup in Hans. destruct (Hans _ _ Hi) as [w Hw].
  apply lookup_lt_Some in Hi.
  split_and!.
  - lia.
  - exists inv, result, w. rewrite Hw. subst program. by split_and!.
  - intros i inv' next Hinv Hnext.
    destruct (Performed_invocation _ _ _ _ _ _ _ _ _ _ Hrun Hinv)
      as (_ & _ & _ & Hn).
    destruct (Hn next Hnext) as (r & ? & ? & _). by exists r.
Qed.

(** X4: a search stops at [ExhaustedBudget] only with the budget as its
    count, after exactly [maxIterations] invocations that all completed
    with an output different from their candidate. *)
Theorem exhausted_only_after_full_budget startingProgram (st : State World)
    count :
  (search startingProgram st).1 = ExhaustedBudget count ->
  count = maxIterations /\ 1 <= maxIterations /\
  Z.of_nat (length (new_invocations st (search startingProgram st).2))
    = maxIterations /\
  Forall (Differs errorsInStderr)
    (new_invocations st (search startingProgram st).2).
Proof.
  intros He.
  destruct (search_performed subprocess_run maxIterations description
              progFile compileCommand errorsInStderr startingProgram st)
    as (Hrun & _ & _).
  pose proof (Performed_exit _ _ _ _ _ _ _ _ Hrun) as Hexit.
  rewrite He in Hexit. destruct Hexit as (Hk & Hlen & Hall).
  destruct (decide (1 <= maxIterations)) as [Hm|Hm].
  - rewrite last_range in Hk by lia. cbn in Hk. injection Hk as Hk.
    rewrite Hlen, length_range. split_and!; [lia|done|lia|done].
  - rewrite range_nil in Hk by lia. discriminate Hk.
Qed.

Lemma for_count_files_preserved counts count program (st : State World) :
  (forall w fs, (subprocess_run compileCommand w fs).1.2 = fs) ->
  exists calls,
    invocations (loop counts count program st).2 = invocations st ++ calls /\
    files (loop counts count program st).2
      = from_option
          (fun inv => <[progFile := inv_program inv +:+ newline]> (files st))
          (files st) (last calls).
Proof.
  intros Hpres. revert count program st.
  induction counts as [|c rest IH]; intros count program st.
  - exists []. rewrite app_nil_r. by destruct count.
  - rewrite for_count_cons.
    destruct (subprocess_run compileCommand (world st)
                (submitted program st)) as [[w fs] a] eqn:Hrun.
    assert (fs = submitted program st) as ->.
    { rewrite <- (Hpres (world st) (submitted program st)).
      by rewrite Hrun. }
    destruct a as [result|].
    + destruct (decide (selected errorsInStderr result = program))
        as [Heq|Hne].
      * rewrite (loop_body_equal _ _ _ _ _ _ _ _ _ _ Hrun Heq).
        by eexists [_].
      * rewrite (loop_body_differs _ _ _ _ _ _ _ _ _ _ Hrun Hne).
        match goal with
        | |- context [loop rest (Some c) ?p ?s] =>
            destruct (IH (Some c) p s) as (calls & Hinv & Hfiles)
        end.
        eexists (_ :: calls). split.
        { rewrite Hinv. cbn. by rewrite <- app_assoc. }
        rewrite Hfiles, last_cons. cbn.
        destruct (last calls) as [inv|]; cbn; [|done].
        apply insert_insert_eq.
    + rewrite (loop_body_raised _ _ _ _ _ _ _ _ _ Hrun). by eexists [_].
Qed.

(** X5: when the transformer leaves the files as it finds them, a search
    with a budget of at least one changes nothing but the artifact file,
    which ends up holding the candidate of the last invocation followed by
    one line feed: the fixed point when the search converged, and a text
    that the transformer did not reproduce when the budget ran out. *)
Theorem search_leaves_last_candidate_in_artifact startingProgram
    (st : State World) :
  (forall w fs, (subprocess_run compileCommand w fs).1.2 = fs) ->
  1 <= maxIterations ->
  exists inv,
    last (new_invocations st (search startingProgram st).2) = Some inv /\
    files (search startingProgram st).2
      = <[progFile := inv_program inv +:+ newline]> (files st) /\
    (forall program count,
       (search startingProgram st).1 = Converged program count ->
       inv_program inv = program) /\
    (forall count,
       (search startingProgram st).1 = ExhaustedBudget count ->
       Differs errorsInStderr inv).
Proof.
  intros Hpres Hm.
  destruct (search_performed subprocess_run maxIterations description
              progFile compileCommand errorsInStderr startingProgram st)
    as (Hrun & Hinv & _).
  pose proof (Performed_exit _ _ _ _ _ _ _ _ Hrun) as Hexit.
  revert Hrun Hinv Hexit. rewrite search_unfold. intros Hrun Hinv Hexit.
  destruct (for_count_files_preserved (range 1 (maxIterations + 1)) None
              startingProgram (announced st) Hpres)
    as (calls & Hcalls & Hfiles).
  cbn in Hcalls. rewrite Hcalls in Hinv. apply app_inv_head in Hinv.
  rewrite <- Hinv in *. clear Hinv.
  destruct (last calls) as [inv|] eqn:Hlast.
  - exists inv. split_and!; [done|done| |].
    + intros program count He. rewrite He in Hexit.
      destruct Hexit as (inv' & _ & Hlast' & Hp & _). congruence.
    + intros count He. rewrite He in Hexit.
      destruct Hexit as (_ & _ & Hall).
      rewrite last_lookup in Hlast. rewrite Forall_lookup in Hall.
      by apply (Hall _ _ Hlast).
  - apply last_None in Hlast. rewrite Hlast in Hrun.
    rewrite range_cons in Hrun by lia.
    apply Performed_nonempty in Hrun. cbn in Hrun. lia.
Qed.

Section PureTransformer.

(** The transformer as a function [g] of the candidate: whatever the state
    of the machine, on a file holding the candidate and one line feed it
    completes with [g candidate] on the selected stream. *)
Variable g : string -> string.
Hypothesis transformer_is_g : forall w fs program,
  fs !! progFile = Some (program +:+ newline) ->
  exists w' fs' result,
    subprocess_run compileCommand w fs = (w', fs', Completed result) /\
    selected errorsInStderr result = g program.

Lemma for_count_iterates k : forall program c stop count (st : State World),
  c + Z.of_nat k < stop ->
  (forall j, (j < k)%nat ->
     g (Nat.iter j g program) <> Nat.iter j g program) ->
  g (Nat.iter k g program) = Nat.iter k g program ->
  (loop (range c stop) count program st).1
    = Converged (Nat.iter k g program) (c + Z.of_nat k) /\
  exists calls,
    invocations (loop (range c stop) count program st).2
      = invocations st ++ calls /\
    length calls = S k.
Proof.
  induction k as [|k IH]; intros program c stop count st Hk Hbefore Hfix.
  - rewrite range_cons by lia. rewrite for_count_cons.
    destruct (transformer_is_g (world st) (submitted program st) program)
      as (w & fs & result & Hrun & Hsel); [apply lookup_insert_eq|].
    cbn in Hfix. rewrite <- Hsel in Hfix.
    rewrite (loop_body_equal _ _ _ _ _ _ _ _ _ _ Hrun Hfix). cbn.
    split; [f_equal; lia|]. by eexists [_].
  - rewrite range_cons by lia. rewrite for_count_cons.
    destruct (transformer_is_g (world st) (submitted program st) program)
      as (w & fs & result & Hrun & Hsel); [apply lookup_insert_eq|].
    pose proof (Hbefore 0%nat ltac:(lia)) as Hne. cbn in Hne.
    rewrite <- Hsel in Hne.
    rewrite (loop_body_differs _ _ _ _ _ _ _ _ _ _ Hrun Hne). rewrite Hsel.
    match goal with
    | |- context [loop _ (Some c) _ ?s] =>
        destruct (IH (g program) (c + 1) stop (Some c) s)
          as (He & calls & Hinv & Hlen)
    end.
    + lia.
    + intros j Hj. rewrite <- !Nat.iter_succ_r. apply Hbefore. lia.
    + by rewrite <- !Nat.iter_succ_r.
    + rewrite He, <- Nat.iter_succ_r. split; [f_equal; lia|].
      eexists (_ :: calls). split; [|cbn; by rewrite Hlen].
      rewrite Hinv. cbn. by rewrite <- app_assoc.
Qed.

(** X2: for a transformer that is a function [g] of the candidate, the
    search returns the first iterate of [g] on the starting text that [g]
    maps to itself, provided it comes within the budget: if iterate [k] is
    the first such one, the search stops at [Converged] with that iterate
    and count [k+1], after [k+1] invocations, and returns [True]. *)
Theorem search_finds_first_fixed_iterate startingProgram (st : State World)
    (k : nat) :
  Z.of_nat k < maxIterations ->
  (forall j, (j < k)%nat ->
     g (Nat.iter j g startingProgram) <> Nat.iter j g startingProgram) ->
  g (Nat.iter k g startingProgram) = Nat.iter k g startingProgram ->
  (search startingProgram st).1
    = Converged (Nat.iter k g startingProgram) (Z.of_nat k + 1) /\
  length (new_invocations st (search startingProgram st).2) = S k /\
  (called startingProgram st).1 = Returns true.
Proof.
  intros Hk Hbefore Hfix.
  rewrite compileErrors_result, search_unfold. unfold new_invocations.
  destruct (for_count_iterates k startingProgram 1 (maxIterations + 1) None
              (announced st) ltac:(lia) Hbefore Hfix)
    as (He & calls & Hinv & Hlen).
  rewrite He, Hinv. cbn. rewrite drop_app_length.
  split_and!; [f_equal; lia|done|done].
Qed.

(** X6: for a transformer that is a function of the candidate, the program
    at which a search converged is accepted at once when it is submitted
    again: a new search that starts from it stops at iteration 1 with the
    same program, after one invocation. *)
Theorem converged_program_converges_at_once startingProgram
    (st st' : State World) program count :
  (search startingProgram st).1 = Converged program count ->
  (search program st').1 = Converged program 1 /\
  length (new_invocations st' (search program st').2) = 1%nat.
Proof.
  intros He.
  destruct (search_performed subprocess_run maxIterations description
              progFile compileCommand errorsInStderr startingProgram st)
    as (Hrun & _ & _).
  pose proof (search_answered subprocess_run maxIterations description
                progFile compileCommand errorsInStderr startingProgram st)
    as Hans.
  pose proof (Performed_exit _ _ _ _ _ _ _ _ Hrun) as Hexit.
  rewrite He in Hexit.
  destruct Hexit as (inv & result & Hlast & Hp & _ & Ha & Hsel).
  rewrite last_lookup in Hlast.
  destruct (Performed_invocation _ _ _ _ _ _ _ _ _ _ Hrun Hlast)
    as (Hfile & _).
  rewrite Forall_lookup in Hans. destruct (Hans _ _ Hlast) as [w Hw].
  rewrite Hp in Hfile.
  destruct (transformer_is_g w (inv_files inv) program Hfile)
    as (w' & fs' & result' & Hrun' & Hsel').
  rewrite Hrun', Ha in Hw. injection Hw as ->.
  assert (1 <= maxIterations) as Hm.
  { destruct (decide (1 <= maxIterations)) as [|Hno]; [done|].
    rewrite range_nil in Hrun by lia. rewrite He in Hrun. inversion Hrun. }
  rewrite search_unfold. unfold new_invocations.
  destruct (for_count_iterates 0 program 1 (maxIterations + 1) None
              (announced st') ltac:(lia) ltac:(intros; lia)
              ltac:(cbn; congruence))
    as (He' & calls & Hinv & Hlen).
  rewrite He', Hinv. cbn. rewrite drop_app_length. by split.
Qed.

End PureTransformer.

End SearchProperties.

(** ** The script as a whole *)

Section ScriptProperties.

Context {World : Type}.
Variable subprocess_run :
  list string -> World -> gmap string string ->
  World * gmap string string * Attempt.
Variable budget : Z.
Hypothesis budget_positive : 1 <= budget.

Abbreviation call_of c :=
  (compileErrors subprocess_run budget (call_description c)
     (call_progFile c) (call_compileCommand c) (call_errorsInStderr c)
     (call_startingProgram c)).

Lemma one_call c (st : State World) :
  exists e value calls,
    (call_of c st).1 = Returns value /\
    valid_exit budget c e /\
    sys_stdout (call_of c st).2 = sys_stdout st +:+ call_output c e /\
    invocations (call_of c st).2 = invocations st ++ calls /\
    (1 <= length calls)%nat /\ Z.of_nat (length calls) <= budget.
Proof.
  destruct (search_performed subprocess_run budget (call_description c)
              (call_progFile c) (call_compileCommand c)
              (call_errorsInStderr c) (call_startingProgram c) st)
    as (Hrun & Hinv & Hout).
  rewrite compileErrors_result. cbn [fst snd].
  match type of Hrun with
  | Performed _ _ _ _ _ _ ?cs ?e =>
      set (calls := cs) in *; set (exit := e) in *
  end.
  pose proof (Performed_exit _ _ _ _ _ _ _ _ Hrun) as Hexit.
  pose proof (Performed_length _ _ _ _ _ _ _ _ Hrun) as Hlen.
  rewrite length_range in Hlen.
  assert (1 <= length calls)%nat as Hone.
  { rewrite range_cons in Hrun by lia. eapply Performed_nonempty, Hrun. }
  assert (exists value, result_of exit = Returns value /\
                        valid_exit budget c exit) as (value & Hv & Hvalid).
  { destruct exit as [p k|command|k|].
    - exists true. split; [done|]. right; right. exists p, k.
      split; [done|].
      destruct Hexit as (inv & _ & Hlast & _ & Hk & _).
      rewrite last_lookup in Hlast.
      destruct (Performed_invocation _ _ _ _ _ _ _ _ _ _ Hrun Hlast)
        as (_ & Hcount & _).
      apply lookup_range in Hcount. lia.
    - exists false. split; [done|]. left. by destruct Hexit as [-> _].
    - exists false. split; [done|]. right; left.
      destruct Hexit as (Hk & _). rewrite last_range in Hk by lia.
      cbn in Hk. injection Hk as Hk. f_equal. lia.
    - destruct Hexit as [Hnil _]. rewrite range_cons in Hnil by lia.
      discriminate Hnil. }
  exists exit, value, calls. split_and!; [done..|lia].
Qed.

Lemma run_calls_spec calls : forall (st : State World),
  exists exits invs,
    (run_calls subprocess_run budget calls st).1 = Finished /\
    Forall2 (valid_exit budget) calls exits /\
    sys_stdout (run_calls subprocess_run budget calls st).2
      = sys_stdout st +:+ concat_text (zip_with call_output calls exits) /\
    invocations (run_calls subprocess_run budget calls st).2
      = invocations st ++ invs /\
    (length calls <= length invs)%nat /\
    Z.of_nat (length invs) <= budget * Z.of_nat (length calls).
Proof.
  induction calls as [|c rest IH]; intros st.
  - exists [], []. cbn. rewrite app_nil_r, string_app_nil_r.
    split_and!; [done|constructor|done|done|done|lia].
  - destruct (one_call c st)
      as (e & value & made & Hret & Hvalid & Hout & Hinv & Hone & Hmax).
    cbn [run_calls]. destruct (call_of c st) as [r st1]. cbn in *.
    subst r.
    destruct (IH st1) as (exits & invs & Hfin & Hall & Hout' & Hinv' & Hlo
                          & Hhi).
    exists (e :: exits), (made ++ invs). split_and!.
    + done.
    + by constructor.
    + rewrite Hout', Hout. cbn. by rewrite string_app_assoc.
    + rewrite Hinv', Hinv. by rewrite <- app_assoc.
    + rewrite length_app. cbn. lia.
    + rewrite length_app. cbn. nia.
Qed.

Hypothesis files_untouched :
  forall command w fs, (subprocess_run command w fs).1.2 = fs.




End ScriptProperties.

(** X7: provided every attempt to run a command comes back, completing
    with whatever exit status and output or raising an [Exception], and
    every artifact path can be written (line 39 sets no timeout and the
    [open] of line 36 is outside the [try], so a command that hangs or an
    unwritable path stops the module; both are outside this model), the
    script reaches its end without an uncaught exception, every one of its
    eight searches is attempted even when earlier ones could not run their
    command, and between 8 and 80 compiler invocations are made in all. *)
Theorem script_attempts_every_search {World : Type}
    (subprocess_run : list string -> World -> gmap string string ->
                      World * gmap string string * Attempt)
    (st : State World) :
  (script subprocess_run st).1 = Finished /\
  (8 <= length (new_invocations st (script subprocess_run st).2) <= 80)%nat.
Proof.
  assert (1 <= maxIterations) as Hb by (unfold maxIterations; lia).
  destruct (run_calls_spec subprocess_run maxIterations Hb script_calls st)
    as (exits & invs & Hfin & _ & _ & Hinv & Hlo & Hhi).
  unfold script, new_invocations. rewrite Hfin, Hinv, drop_app_length.
  cbn in Hlo, Hhi. unfold maxIterations in Hhi. split; [done|lia].
Qed.

(** X8: provided every attempt to run a command comes back, completing or
    raising an [Exception], and every artifact path can be written (as for
    X7: a command that hangs or an unwritable path is outside this model),
    the script adds to the standard output exactly one text per call, in
    the order of the calls: the description, a colon and a space, and then
    the report line of one of the three exits the call can have. *)
Theorem script_prints_one_report_per_call {World : Type}
    (subprocess_run : list string -> World -> gmap string string ->
                      World * gmap string string * Attempt)
    (st : State World) :
  exists exits,
    Forall2 (valid_exit maxIterations) script_calls exits /\
    sys_stdout (script subprocess_run st).2
      = sys_stdout st
        +:+ concat_text (zip_with call_output script_calls exits).
Proof.
  assert (1 <= maxIterations) as Hb by (unfold maxIterations; lia).
  destruct (run_calls_spec subprocess_run maxIterations Hb script_calls st)
    as (exits & invs & _ & Hall & Hout & _).
  by exists exits.
Qed.


(** ** The stream that is not selected *)

Section OtherStream.

Context {W1 W2 : Type}.
Variable R : W1 -> W2 -> Prop.
Variable run1 :
  list string -> W1 -> gmap string string ->
  W1 * gmap string string * Attempt.
Variable run2 :
  list string -> W2 -> gmap string string ->
  W2 * gmap string string * Attempt.
Variable maxIterations : Z.
Variables (description progFile : string) (compileCommand : list string)
          (errorsInStderr : bool).

Hypothesis selected_agree : forall w1 w2 fs,
  R w1 w2 ->
  same_selected errorsInStderr R
    (run1 compileCommand w1 fs) (run2 compileCommand w2 fs).

Lemma for_count_same_selected counts count program
    (st1 : State W1) (st2 : State W2) :
  same_observables R st1 st2 ->
  (for_count run1 progFile compileCommand errorsInStderr
     counts count program st1).1
  = (for_count run2 progFile compileCommand errorsInStderr
       counts count program st2).1 /\
  same_observables R
    (for_count run1 progFile compileCommand errorsInStderr
       counts count program st1).2
    (for_count run2 progFile compileCommand errorsInStderr
       counts count program st2).2.
Proof.
  revert count program st1 st2.
  induction counts as [|c rest IH];
    intros count program st1 st2 (Hfiles & Hworld & Hout & Hlen).
  - destruct count as [k|]; cbn; [|done].
    split; [done|]. unfold same_observables; cbn. by rewrite Hout.
  - rewrite !for_count_cons.
    pose proof (selected_agree (world st1) (world st2)
                  (<[progFile := program +:+ newline]> (files st1)) Hworld)
      as Hsame.
    rewrite Hfiles in Hsame at 2.
    destruct (run1 compileCommand (world st1)
                (<[progFile := program +:+ newline]> (files st1)))
      as [[w1 fs1] a1] eqn:Hrun1.
    destruct (run2 compileCommand (world st2)
                (<[progFile := program +:+ newline]> (files st2)))
      as [[w2 fs2] a2] eqn:Hrun2.
    destruct Hsame as (Hw & Hfs & Hsel). cbn in Hw, Hfs, Hsel.
    destruct a1 as [r1|], a2 as [r2|]; try done.
    + destruct (decide (selected errorsInStderr r1 = program))
        as [Heq|Hne].
      * rewrite (loop_body_equal _ _ _ _ _ _ _ _ _ _ Hrun1 Heq).
        rewrite Hsel in Heq.
        rewrite (loop_body_equal _ _ _ _ _ _ _ _ _ _ Hrun2 Heq).
        split; [done|]. unfold same_observables; cbn.
        by rewrite Hout, !length_app, Hlen.
      * rewrite (loop_body_differs _ _ _ _ _ _ _ _ _ _ Hrun1 Hne).
        rewrite Hsel in Hne.
        rewrite (loop_body_differs _ _ _ _ _ _ _ _ _ _ Hrun2 Hne).
        rewrite Hsel. apply IH. unfold same_observables; cbn.
        by rewrite !length_app, Hlen.
    + rewrite (loop_body_raised _ _ _ _ _ _ _ _ _ Hrun1).
      rewrite (loop_body_raised _ _ _ _ _ _ _ _ _ Hrun2).
      split; [done|]. unfold same_observables; cbn.
      by rewrite Hout, !length_app, Hlen.
Qed.

(** X11: only the selected stream of the transformer matters.  Two
    transformers that agree, invocation by invocation, on whether the
    process ran and on the stream chosen by [errorsInStderr] lead the
    search to the same exit, returned value, report, files and number of
    invocations, whatever they write to the other stream. *)
Theorem other_stream_is_ignored startingProgram
    (st1 : State W1) (st2 : State W2) :
  same_observables R st1 st2 ->
  (compileErrors_exit run1 maxIterations description progFile
     compileCommand errorsInStderr startingProgram st1).1
  = (compileErrors_exit run2 maxIterations description progFile
       compileCommand errorsInStderr startingProgram st2).1 /\
  (compileErrors run1 maxIterations description progFile
     compileCommand errorsInStderr startingProgram st1).1
  = (compileErrors run2 maxIterations description progFile
       compileCommand errorsInStderr startingProgram st2).1 /\
  same_observables R
    (compileErrors_exit run1 maxIterations description progFile
       compileCommand errorsInStderr startingProgram st1).2
    (compileErrors_exit run2 maxIterations description progFile
       compileCommand errorsInStderr startingProgram st2).2.
Proof.
  intros (Hfiles & Hworld & Hout & Hlen).
  rewrite !compileErrors_result, !search_unfold.
  match goal with
  | |- context [for_count run1 _ _ _ ?cs ?c ?p ?s1] =>
      match goal with
      | |- context [for_count run2 _ _ _ _ _ _ ?s2] =>
          destruct (for_count_same_selected cs c p s1 s2) as [He Hobs]
      end
  end.
  { unfold same_observables; cbn. by rewrite Hout. }
  cbn [fst snd]. rewrite He. by split_and!.
Qed.

End OtherStream.

(** A compiler that also writes a banner to its standard output is not
    told apart from a silent one when the standard error is selected. *)
Lemma other_stream_is_ignored_witness :
  (compileErrors_exit (emit "" "syntax error on line 1" 1) maxIterations
     "Python" "prog.py" ["py"; "prog.py"] true "x" (initial ∅ tt)).1
  = (compileErrors_exit (emit "banner" "syntax error on line 1" 1)
       maxIterations "Python" "prog.py" ["py"; "prog.py"] true "x"
       (initial ∅ tt)).1.
Proof.
  refine (proj1 (other_stream_is_ignored (fun _ _ : unit => True)
                   (emit "" "syntax error on line 1" 1)
                   (emit "banner" "syntax error on line 1" 1)
                   maxIterations "Python" "prog.py" ["py"; "prog.py"] true
                   (fun w1 w2 fs _ => conj I (conj eq_refl eq_refl))
                   "x" (initial ∅ tt) (initial ∅ tt)
                   (conj eq_refl (conj I (conj eq_refl eq_refl))))).
Defined.

(** ** The further properties on concrete runs *)

(** A budget of zero with the script's second call. *)
Lemma empty_budget_only_announces_witness :
  (compileErrors (complain "syntax error on line 1" 1) 0 "Python" "prog.py"
     ["py"; "prog.py"] true "x" (initial ∅ tt)).1
  = Raises "UnboundLocalError" /\
  new_invocations (initial ∅ tt)
    (compileErrors (complain "syntax error on line 1" 1) 0 "Python"
       "prog.py" ["py"; "prog.py"] true "x" (initial ∅ tt)).2 = [].
Proof.
  destruct (empty_budget_only_announces
              (complain "syntax error on line 1" 1) 0 "Python" "prog.py"
              ["py"; "prog.py"] true "x" (initial ∅ tt) ltac:(lia))
    as (Hraise & _ & Hnone).
  exact (conj Hraise Hnone).
Defined.

(** The constant message is the second iterate's fixed point: from "x" the
    first iterate that the transformer maps to itself is iterate 1. *)
Lemma search_finds_first_fixed_iterate_witness :
  (compileErrors_exit (complain "syntax error on line 1" 1) maxIterations
     "Python" "prog.py" ["py"; "prog.py"] true "x" (initial ∅ tt)).1
  = Converged "syntax error on line 1" 2 /\
  length (new_invocations (initial ∅ tt)
    (compileErrors_exit (complain "syntax error on line 1" 1) maxIterations
       "Python" "prog.py" ["py"; "prog.py"] true "x" (initial ∅ tt)).2)
  = 2%nat.
Proof.
  edestruct (search_finds_first_fixed_iterate
               (complain "syntax error on line 1" 1) maxIterations
               "Python" "prog.py" ["py"; "prog.py"] true
               (fun _ => "syntax error on line 1"))
    with (startingProgram := "x") (st := initial ∅ tt) (k := 1%nat)
    as (He & Hlen & _).
  - intros w fs program _. eexists _, _, _. split; reflexivity.
  - unfold maxIterations. lia.
  - intros [|j] Hj; [cbn; discriminate|lia].
  - reflexivity.
  - exact (conj He Hlen).
Defined.

(** The search of the script's second call converges; its last invocation
    is the second one. *)
Lemma converged_program_is_fixed_point_witness :
  Z.of_nat (length (new_invocations (initial ∅ tt)
    (compileErrors_exit (complain "syntax error on line 1" 1) maxIterations
       "Python" "prog.py" ["py"; "prog.py"] true "x" (initial ∅ tt)).2))
  = 2.
Proof.
  refine (proj1 (converged_program_is_fixed_point
                   (complain "syntax error on line 1" 1) maxIterations
                   "Python" "prog.py" ["py"; "prog.py"] true "x"
                   (initial ∅ tt) "syntax error on line 1" 2 _)).
  vm_compute. reflexivity.
Defined.

(** The echoing process uses up the budget of the script. *)
Lemma exhausted_only_after_full_budget_witness :
  Z.of_nat (length (new_invocations (initial ∅ tt)
    (compileErrors_exit cat_file maxIterations "Echo" "prog.txt"
       ["cat"; "prog.txt"] false "x" (initial ∅ tt)).2)) = maxIterations.
Proof.
  edestruct (exhausted_only_after_full_budget cat_file maxIterations "Echo"
               "prog.txt" ["cat"; "prog.txt"] false "x" (initial ∅ tt))
    as (_ & _ & Hlen & _).
  - vm_compute. reflexivity.
  - exact Hlen.
Defined.

(** After the search of the script's second call the artifact holds the
    constant message. *)
Lemma search_leaves_last_candidate_in_artifact_witness :
  exists inv,
    files (compileErrors_exit (complain "syntax error on line 1" 1)
             maxIterations "Python" "prog.py" ["py"; "prog.py"] true "x"
             (initial ∅ tt)).2
    = <["prog.py" := inv_program inv +:+ newline]> ∅.
Proof.
  destruct (search_leaves_last_candidate_in_artifact
              (complain "syntax error on line 1" 1) maxIterations
              "Python" "prog.py" ["py"; "prog.py"] true "x" (initial ∅ tt)
              (fun w fs => eq_refl) ltac:(unfold maxIterations; lia))
    as (inv & _ & Hfiles & _).
  exists inv. exact Hfiles.
Defined.

(** The constant message, submitted again, is accepted at once. *)
Lemma converged_program_converges_at_once_witness :
  (compileErrors_exit (complain "syntax error on line 1" 1) maxIterations
     "Python" "prog.py" ["py"; "prog.py"] true "syntax error on line 1"
     (initial ∅ tt)).1
  = Converged "syntax error on line 1" 1.
Proof.
  edestruct (converged_program_converges_at_once
               (complain "syntax error on line 1" 1) maxIterations
               "Python" "prog.py" ["py"; "prog.py"] true
               (fun _ => "syntax error on line 1"))
    with (startingProgram := "x") (st := initial ∅ tt)
         (st' := initial ∅ tt) as (He & _).
  - intros w fs program _. eexists _, _, _. split; reflexivity.
  - vm_compute. reflexivity.
  - exact He.
Defined.

